(** * Subscription billing: reconciliation handlers, usage gate, revenue metrics

    A shallow embedding of the billing route handlers
    ([handleCheckoutComplete], [handleSubscriptionUpdate],
    [handleSubscriptionDeleted], [handleInvoicePaid], [handlePaymentFailed])
    and of the Subscription model (schema validators, [resetUsage],
    [canUseFeature], [getMRR], [getARR], [getChurnRate]).

    Conventions.
    - A JavaScript [Date] is its time value: milliseconds since the epoch, in [Z].
    - A [Number] field is an integer in [Z] wherever the source only ever
      assigns integers to it; [mrr] (a yearly price divided by 12), its
      sum and the churn rate are exact rationals, kept canonical in [Qc]
      so that equality of values is equality of numbers.  The running
      program holds the doubles nearest to them.
    - The Subscription collection is a list of documents in natural order
      (what [findOne] without a sort scans); the User collection is a
      finite map from the user id.
    - The handlers are [async] functions that can reject; they live in a
      small state-and-exception monad over the database.
    - A handler takes the time of its run as the argument [now]: every
      [new Date()] of one run reads that instant. *)

From Stdlib Require Import ZArith QArith Qcanon List Lia.
From stdpp Require Import base decidable option strings list gmap.

Open Scope Z_scope.
Open Scope string_scope.

(** ** Dates *)

Definition Date := Z.

(** ** The plan catalogue ([PLANS]) *)

(** A value of an entitlement bundle: the object literals hold numbers and
    booleans. *)
Inductive JsVal :=
| JNum (n : Z)
| JBool (b : bool).

Inductive BillingCycle := monthly | yearly.

(** [prices: { monthly: .., yearly: .. }] *)
Record Prices := { price_monthly : Z; price_yearly : Z }.

(** One entry of [PLANS].  The [features] object literal is kept as the
    ordered list of its own keys with their values, which is what
    [Object.keys] enumerates.  ([stripeIds] is only read by the
    checkout-session route, which is not part of this development.) *)
Record Plan := {
  plan_name : string;
  prices : Prices;
  plan_features : list (string * JsVal)
}.

Definition free_features : list (string * JsVal) :=
  [ ("maxProjects", JNum 3); ("maxCollaborators", JNum 0);
    ("aiTutorMinutes", JNum 10); ("codeExecutions", JNum 50);
    ("storageGB", JNum 1); ("customDomains", JNum 0);
    ("prioritySupport", JBool false); ("advancedAnalytics", JBool false);
    ("ssoEnabled", JBool false); ("apiAccess", JBool false) ].

Definition starter_features : list (string * JsVal) :=
  [ ("maxProjects", JNum 10); ("maxCollaborators", JNum 2);
    ("aiTutorMinutes", JNum 100); ("codeExecutions", JNum 500);
    ("storageGB", JNum 10); ("customDomains", JNum 1);
    ("prioritySupport", JBool false); ("advancedAnalytics", JBool true);
    ("ssoEnabled", JBool false); ("apiAccess", JBool false) ].

Definition pro_features : list (string * JsVal) :=
  [ ("maxProjects", JNum 50); ("maxCollaborators", JNum 10);
    ("aiTutorMinutes", JNum 500); ("codeExecutions", JNum 5000);
    ("storageGB", JNum 100); ("customDomains", JNum 5);
    ("prioritySupport", JBool true); ("advancedAnalytics", JBool true);
    ("ssoEnabled", JBool false); ("apiAccess", JBool true) ].

Definition enterprise_features : list (string * JsVal) :=
  [ ("maxProjects", JNum 999999); ("maxCollaborators", JNum 999999);
    ("aiTutorMinutes", JNum 999999); ("codeExecutions", JNum 999999);
    ("storageGB", JNum 1000); ("customDomains", JNum 999999);
    ("prioritySupport", JBool true); ("advancedAnalytics", JBool true);
    ("ssoEnabled", JBool true); ("apiAccess", JBool true);
    ("whiteLabeling", JBool true); ("dedicatedManager", JBool true) ].

Definition PLANS_free : Plan :=
  {| plan_name := "Free";
     prices := {| price_monthly := 0; price_yearly := 0 |};
     plan_features := free_features |}.

Definition PLANS_starter : Plan :=
  {| plan_name := "Starter";
     prices := {| price_monthly := 19; price_yearly := 190 |};
     plan_features := starter_features |}.

Definition PLANS_pro : Plan :=
  {| plan_name := "Pro";
     prices := {| price_monthly := 49; price_yearly := 490 |};
     plan_features := pro_features |}.

Definition PLANS_enterprise : Plan :=
  {| plan_name := "Enterprise";
     prices := {| price_monthly := 499; price_yearly := 4990 |};
     plan_features := enterprise_features |}.

Definition PLANS : gmap string Plan :=
  <["free" := PLANS_free]>
  (<["starter" := PLANS_starter]>
  (<["pro" := PLANS_pro]>
  (<["enterprise" := PLANS_enterprise]> ∅))).

(** [prices[billingCycle]] *)
Definition price_of (p : Prices) (c : BillingCycle) : Z :=
  match c with monthly => price_monthly p | yearly => price_yearly p end.

(** [Object.keys(o)] *)
Definition Object_keys (o : list (string * JsVal)) : list string := map fst o.

(** ** The Subscription schema *)

Record Features := {
  maxProjects : Z;
  maxCollaborators : Z;
  aiTutorMinutes : Z;
  codeExecutions : Z;
  storageGB : Z;
  customDomains : Z;
  prioritySupport : bool;
  advancedAnalytics : bool;
  ssoEnabled : bool;
  apiAccess : bool;
  whiteLabeling : bool;
  dedicatedManager : bool
}.

Record Usage := {
  currentProjects : Z;
  aiTutorMinutesUsed : Z;
  codeExecutionsUsed : Z;
  storageUsedGB : Z;
  lastResetDate : Date
}.

(** A stored document.  [createdAt] and [updatedAt] come from the schema
    option [timestamps: true]; [companyInfo] and [metadata] are never read
    or written by the modelled code and are left out. *)
Record Subscription := {
  _id : nat;
  userId : string;
  plan : string;
  status : string;
  billingCycle : BillingCycle;
  currency : string;
  amount : Z;
  mrr : Qc;
  stripeCustomerId : option string;
  stripeSubscriptionId : option string;
  startDate : Date;
  currentPeriodStart : Date;
  currentPeriodEnd : Date;
  trialEnd : option Date;
  canceledAt : option Date;
  cancelAtPeriodEnd : bool;
  features : Features;
  usage : Usage;
  createdAt : Date;
  updatedAt : Date
}.

#[global] Instance JsVal_eq_dec : EqDecision JsVal.
Proof. solve_decision. Defined.
#[global] Instance BillingCycle_eq_dec : EqDecision BillingCycle.
Proof. solve_decision. Defined.
#[global] Instance Features_eq_dec : EqDecision Features.
Proof. solve_decision. Defined.
#[global] Instance Usage_eq_dec : EqDecision Usage.
Proof. solve_decision. Defined.
#[global] Instance Subscription_eq_dec : EqDecision Subscription.
Proof. solve_decision. Defined.

(** The schema defaults of the nested [features] paths. *)
Definition default_features : Features :=
  {| maxProjects := 3; maxCollaborators := 0; aiTutorMinutes := 10;
     codeExecutions := 50; storageGB := 1; customDomains := 0;
     prioritySupport := false; advancedAnalytics := false;
     ssoEnabled := false; apiAccess := false;
     whiteLabeling := false; dedicatedManager := false |}.

Fixpoint assoc (k : string) (o : list (string * JsVal)) : option JsVal :=
  match o with
  | [] => None
  | (k', v) :: r => if String.eqb k k' then Some v else assoc k r
  end.

Definition num_field (k : string) (dflt : Z) (o : list (string * JsVal)) : Z :=
  match assoc k o with Some (JNum n) => n | _ => dflt end.

Definition bool_field (k : string) (dflt : bool) (o : list (string * JsVal)) : bool :=
  match assoc k o with Some (JBool b) => b | _ => dflt end.

(** What a document's [features] reads as once a plan's [features] object
    has been written to it: each schema path takes the object's value, and
    a path the object lacks reads as its schema default. *)
Definition cast_features (o : list (string * JsVal)) : Features :=
  {| maxProjects := num_field "maxProjects" 3 o;
     maxCollaborators := num_field "maxCollaborators" 0 o;
     aiTutorMinutes := num_field "aiTutorMinutes" 10 o;
     codeExecutions := num_field "codeExecutions" 50 o;
     storageGB := num_field "storageGB" 1 o;
     customDomains := num_field "customDomains" 0 o;
     prioritySupport := bool_field "prioritySupport" false o;
     advancedAnalytics := bool_field "advancedAnalytics" false o;
     ssoEnabled := bool_field "ssoEnabled" false o;
     apiAccess := bool_field "apiAccess" false o;
     whiteLabeling := bool_field "whiteLabeling" false o;
     dedicatedManager := bool_field "dedicatedManager" false o |}.

(** *** Schema validators *)

Definition plan_enum : list string := ["free"; "starter"; "pro"; "enterprise"].
Definition status_enum : list string :=
  ["active"; "canceled"; "past_due"; "trialing"; "expired"; "paused"].
Definition currency_enum : list string := ["USD"; "EUR"; "GBP"; "BRL"; "MXN"].

Definition in_enum (e : list string) (s : string) : bool :=
  existsb (String.eqb s) e.

(** The validators other than the one on [status]: the [plan] and
    [currency] enumerations and [amount]'s [min: 0].  (The [required]
    paths are always present in a [Subscription]; [billingCycle] is in its
    enumeration by its type.) *)
Definition validate_rest (d : Subscription) : bool :=
  in_enum plan_enum (plan d) && in_enum currency_enum (currency d)
  && (0 <=? amount d)%Z.

(** Document validation, as run before every [save]. *)
Definition validate (d : Subscription) : bool :=
  in_enum status_enum (status d) && validate_rest d.

(** Field assignments on a loaded document. *)
Definition set_status (v : string) (d : Subscription) : Subscription :=
  Build_Subscription (_id d) (userId d) (plan d) v (billingCycle d)
    (currency d) (amount d) (mrr d) (stripeCustomerId d)
    (stripeSubscriptionId d) (startDate d) (currentPeriodStart d)
    (currentPeriodEnd d) (trialEnd d) (canceledAt d) (cancelAtPeriodEnd d)
    (features d) (usage d) (createdAt d) (updatedAt d).

Definition set_currentPeriodStart (v : Date) (d : Subscription) : Subscription :=
  Build_Subscription (_id d) (userId d) (plan d) (status d) (billingCycle d)
    (currency d) (amount d) (mrr d) (stripeCustomerId d)
    (stripeSubscriptionId d) (startDate d) v
    (currentPeriodEnd d) (trialEnd d) (canceledAt d) (cancelAtPeriodEnd d)
    (features d) (usage d) (createdAt d) (updatedAt d).

Definition set_currentPeriodEnd (v : Date) (d : Subscription) : Subscription :=
  Build_Subscription (_id d) (userId d) (plan d) (status d) (billingCycle d)
    (currency d) (amount d) (mrr d) (stripeCustomerId d)
    (stripeSubscriptionId d) (startDate d) (currentPeriodStart d)
    v (trialEnd d) (canceledAt d) (cancelAtPeriodEnd d)
    (features d) (usage d) (createdAt d) (updatedAt d).

Definition set_canceledAt (v : option Date) (d : Subscription) : Subscription :=
  Build_Subscription (_id d) (userId d) (plan d) (status d) (billingCycle d)
    (currency d) (amount d) (mrr d) (stripeCustomerId d)
    (stripeSubscriptionId d) (startDate d) (currentPeriodStart d)
    (currentPeriodEnd d) (trialEnd d) v (cancelAtPeriodEnd d)
    (features d) (usage d) (createdAt d) (updatedAt d).

Definition set_cancelAtPeriodEnd (v : bool) (d : Subscription) : Subscription :=
  Build_Subscription (_id d) (userId d) (plan d) (status d) (billingCycle d)
    (currency d) (amount d) (mrr d) (stripeCustomerId d)
    (stripeSubscriptionId d) (startDate d) (currentPeriodStart d)
    (currentPeriodEnd d) (trialEnd d) (canceledAt d) v
    (features d) (usage d) (createdAt d) (updatedAt d).

Definition set_usage (v : Usage) (d : Subscription) : Subscription :=
  Build_Subscription (_id d) (userId d) (plan d) (status d) (billingCycle d)
    (currency d) (amount d) (mrr d) (stripeCustomerId d)
    (stripeSubscriptionId d) (startDate d) (currentPeriodStart d)
    (currentPeriodEnd d) (trialEnd d) (canceledAt d) (cancelAtPeriodEnd d)
    (features d) v (createdAt d) (updatedAt d).

Definition set_updatedAt (v : Date) (d : Subscription) : Subscription :=
  Build_Subscription (_id d) (userId d) (plan d) (status d) (billingCycle d)
    (currency d) (amount d) (mrr d) (stripeCustomerId d)
    (stripeSubscriptionId d) (startDate d) (currentPeriodStart d)
    (currentPeriodEnd d) (trialEnd d) (canceledAt d) (cancelAtPeriodEnd d)
    (features d) (usage d) (createdAt d) v.

(** ** The User collection *)

(** Modelled from the spec: the User model (models/User) is not among the
    sources.  The handlers write four paths of a user document,
    [subscription.plan], [subscription.startDate], [subscription.endDate]
    and [subscription.features]; the spec calls them the account's
    denormalized summary (plan key, effective dates, current entitlement
    key set).  A user is modelled as exactly these four paths. *)
Record User := {
  subscription_plan : string;
  subscription_startDate : option Date;
  subscription_endDate : option Date;
  subscription_features : list string
}.

(** ** Payloads of the payment processor *)

Module StripeSubscription.
Record t := {
  id : string;
  status : string;
  current_period_start : Z;
  current_period_end : Z;
  cancel_at_period_end : bool;
  canceled_at : option Z;
  trial_end : option Z
}.
End StripeSubscription.

Module Session.
(** [metadata.billingCycle] is a [BillingCycle]: the handler is modelled
    for the sessions whose cycle is one of the two keys of [prices], as
    the checkout route creates them for the cycles of the price table. *)
Record t := {
  metadata_userId : string;
  metadata_plan : string;
  metadata_billingCycle : BillingCycle;
  metadata_currency : option string;
  customer : string;
  subscription : string
}.
End Session.

Module Invoice.
Record t := { id : string; customer : string }.
End Invoice.

(** Truthiness of a nullable number and of a nullable string. *)
Definition truthy_num (o : option Z) : bool :=
  match o with Some n => negb (n =? 0)%Z | None => false end.

Definition truthy_str (o : option string) : bool :=
  match o with Some s => negb (String.eqb s "") | None => false end.

(** [new Date(seconds * 1000)] *)
Definition Date_of_seconds (s : Z) : Date := s * 1000.

(** ** Process state and the handler monad *)

(** The state the handlers run against: the catalogue object [PLANS] (a
    module-level object, read at each use) and the two collections. *)
Record State := {
  catalog : gmap string Plan;
  subscriptions : list Subscription;
  users : gmap string User
}.

Definition with_subscriptions (l : list Subscription) (st : State) : State :=
  {| catalog := catalog st; subscriptions := l; users := users st |}.

Definition with_users (u : gmap string User) (st : State) : State :=
  {| catalog := catalog st; subscriptions := subscriptions st; users := u |}.

Definition with_catalog (c : gmap string Plan) (st : State) : State :=
  {| catalog := c; subscriptions := subscriptions st; users := users st |}.

Inductive Error :=
| ValidationError   (* a schema validator rejected the document on save *)
| TypeError         (* a property was read from [undefined] *)
| ProcessorError    (* the call to the payment processor rejected *)
| CastError.        (* a query was given a value that is not of the path's type *)

Inductive Result (A : Type) :=
| Ok (a : A)
| Throw (e : Error).
Arguments Ok {A} a.
Arguments Throw {A} e.

Definition M (A : Type) : Type := State -> Result A * State.

Definition ret {A} (a : A) : M A := fun st => (Ok a, st).

Definition throw {A} (e : Error) : M A := fun st => (Throw e, st).

Definition bind {A B} (m : M A) (k : A -> M B) : M B :=
  fun st =>
    match m st with
    | (Ok a, st') => k a st'
    | (Throw e, st') => (Throw e, st')
    end.

Notation "'await' x <- c ; k" := (bind c (fun x => k))
  (at level 10, x name, c at level 100, k at level 200).

(** ** Collection operations *)

(** Replace by [f] the first document that satisfies [p]. *)
Fixpoint updateFirst (p : Subscription -> bool) (f : Subscription -> Subscription)
    (l : list Subscription) : list Subscription :=
  match l with
  | [] => []
  | d :: r => if p d then f d :: r else d :: updateFirst p f r
  end.

Definition has_id (i : nat) (d : Subscription) : bool := Nat.eqb (_id d) i.

(** [Subscription.findOne(filter)]: the first document matching the filter. *)
Definition Subscription_findOne (p : Subscription -> bool) : M (option Subscription) :=
  fun st => (Ok (find p (subscriptions st)), st).

(** [doc.save()] on a document loaded as [loaded] and since assigned to,
    giving [doc].  Validation runs first and rejects the save, leaving the
    collection as it is.  A document with no modified path is not written;
    otherwise the document of that [_id] is written and [updatedAt] is
    stamped. *)
Definition save (loaded doc : Subscription) (now : Date) : M unit :=
  fun st =>
    if validate doc then
      if decide (doc = loaded) then (Ok tt, st)
      else (Ok tt, with_subscriptions
                     (updateFirst (has_id (_id doc)) (fun _ => set_updatedAt now doc)
                                  (subscriptions st)) st)
    else (Throw ValidationError, st).

(** [User.findByIdAndUpdate(id, update)]: no upsert, a missing user is
    left missing. *)
Definition User_findByIdAndUpdate (uid : string) (f : User -> User) : M unit :=
  fun st => (Ok tt, with_users (alter f uid (users st)) st).

(** The filters used by the handlers. *)
Definition by_stripeSubscriptionId (i : string) (d : Subscription) : bool :=
  bool_decide (stripeSubscriptionId d = Some i).

Definition by_stripeCustomerId (c : string) (d : Subscription) : bool :=
  bool_decide (stripeCustomerId d = Some c).

Definition by_userId (u : string) (d : Subscription) : bool :=
  bool_decide (userId d = u).

(** ** The webhook handlers *)

(** The assignments [handleSubscriptionUpdate] makes to the loaded document. *)
Definition update_assign (stripeSubscription : StripeSubscription.t)
    (subscription : Subscription) : Subscription :=
  let s1 := set_status (StripeSubscription.status stripeSubscription) subscription in
  let s2 := set_currentPeriodStart
              (Date_of_seconds (StripeSubscription.current_period_start stripeSubscription)) s1 in
  let s3 := set_currentPeriodEnd
              (Date_of_seconds (StripeSubscription.current_period_end stripeSubscription)) s2 in
  let s4 := set_cancelAtPeriodEnd
              (StripeSubscription.cancel_at_period_end stripeSubscription) s3 in
  if truthy_num (StripeSubscription.canceled_at stripeSubscription)
  then set_canceledAt
         (Date_of_seconds <$> StripeSubscription.canceled_at stripeSubscription) s4
  else s4.

Definition handleSubscriptionUpdate (stripeSubscription : StripeSubscription.t)
    (now : Date) : M unit :=
  await found <- Subscription_findOne
                   (by_stripeSubscriptionId (StripeSubscription.id stripeSubscription));
  match found with
  | None => ret tt
  | Some subscription =>
      save subscription (update_assign stripeSubscription subscription) now
  end.

(** The assignments [handleSubscriptionDeleted] makes to the loaded document. *)
Definition deleted_assign (now : Date) (subscription : Subscription) : Subscription :=
  set_canceledAt (Some now) (set_status "canceled" subscription).

Definition handleSubscriptionDeleted (stripeSubscription : StripeSubscription.t)
    (now : Date) : M unit :=
  await found <- Subscription_findOne
                   (by_stripeSubscriptionId (StripeSubscription.id stripeSubscription));
  match found with
  | None => ret tt
  | Some subscription =>
      await _ <- save subscription (deleted_assign now subscription) now;
      User_findByIdAndUpdate (userId subscription)
        (fun u => {| subscription_plan := "free";
                     subscription_startDate := subscription_startDate u;
                     subscription_endDate := Some now;
                     subscription_features := subscription_features u |})
  end.

(** [handleInvoicePaid] only logs. *)
Definition handleInvoicePaid (invoice : Invoice.t) : M unit := ret tt.

Definition handlePaymentFailed (invoice : Invoice.t) (now : Date) : M unit :=
  await found <- Subscription_findOne (by_stripeCustomerId (Invoice.customer invoice));
  match found with
  | Some subscription => save subscription (set_status "past_due" subscription) now
  | None => ret tt
  end.

(** An [_id] no stored document has, for an inserted document. *)
Definition fresh_id (l : list Subscription) : nat :=
  S (foldr Nat.max 0%nat (map _id l)).

(** [Subscription.findOneAndUpdate(filter, update, { upsert: true, new: true })]:
    the first matching document is updated in place; when there is none a
    document is inserted, built from the schema defaults ([blank]) and the
    update.  Update validators are off, as by default; the timestamps
    option stamps [updatedAt], which [upd] is given [now] to do. *)
Definition Subscription_findOneAndUpdate_upsert (p : Subscription -> bool)
    (upd : Subscription -> Subscription) (blank : nat -> Subscription) : M unit :=
  fun st =>
    let l := subscriptions st in
    match find p l with
    | Some _ => (Ok tt, with_subscriptions (updateFirst p upd l) st)
    | None => (Ok tt, with_subscriptions (l ++ [upd (blank (fresh_id l))]) st)
    end.

(** The document the schema defaults give for a new [userId]. *)
Definition blank_subscription (uid : string) (now : Date) (i : nat) : Subscription :=
  {| _id := i; userId := uid; plan := "free"; status := "active";
     billingCycle := monthly; currency := "USD"; amount := 0; mrr := 0%Qc;
     stripeCustomerId := None; stripeSubscriptionId := None;
     startDate := now; currentPeriodStart := now; currentPeriodEnd := now;
     trialEnd := None; canceledAt := None; cancelAtPeriodEnd := false;
     features := default_features;
     usage := {| currentProjects := 0; aiTutorMinutesUsed := 0;
                 codeExecutionsUsed := 0; storageUsedGB := 0;
                 lastResetDate := now |};
     createdAt := now; updatedAt := now |}.

(** [PLANS[plan]], whose properties the caller reads next: a missing key
    makes that read throw. *)
Definition PLANS_get (k : string) : M Plan :=
  fun st =>
    match catalog st !! k with
    | Some p => (Ok p, st)
    | None => (Throw TypeError, st)
    end.

Section Gateway.

(** [stripe.subscriptions.retrieve], the processor's answer to a
    subscription id; [None] is a rejected call. *)
Variable stripe_subscriptions_retrieve : string -> option StripeSubscription.t.

Definition retrieve (i : string) : M StripeSubscription.t :=
  fun st =>
    match stripe_subscriptions_retrieve i with
    | Some s => (Ok s, st)
    | None => (Throw ProcessorError, st)
    end.

Definition handleCheckoutComplete (session : Session.t) (now : Date) : M unit :=
  let userId_ := Session.metadata_userId session in
  let plan_ := Session.metadata_plan session in
  let billingCycle_ := Session.metadata_billingCycle session in
  let currency_ :=
    if truthy_str (Session.metadata_currency session)
    then default "USD" (Session.metadata_currency session) else "USD" in
  await stripeSubscription <- retrieve (Session.subscription session);
  await entry <- PLANS_get plan_;
  let amount_ := price_of (prices entry) billingCycle_ in
  let mrr_ :=
    match billingCycle_ with
    | yearly => (Q2Qc (inject_Z amount_) / Q2Qc 12)%Qc
    | monthly => Q2Qc (inject_Z amount_)
    end in
  let periodEnd :=
    Date_of_seconds (StripeSubscription.current_period_end stripeSubscription) in
  await _ <- Subscription_findOneAndUpdate_upsert (by_userId userId_)
    (fun d =>
       {| _id := _id d; userId := userId d;
          plan := plan_;
          status := "active";
          billingCycle := billingCycle_;
          currency := currency_;
          amount := amount_;
          mrr := mrr_;
          stripeCustomerId := Some (Session.customer session);
          stripeSubscriptionId := Some (Session.subscription session);
          startDate := startDate d;
          currentPeriodStart :=
            Date_of_seconds (StripeSubscription.current_period_start stripeSubscription);
          currentPeriodEnd := periodEnd;
          trialEnd :=
            if truthy_num (StripeSubscription.trial_end stripeSubscription)
            then Date_of_seconds <$> StripeSubscription.trial_end stripeSubscription
            else None;
          canceledAt := canceledAt d;
          cancelAtPeriodEnd := cancelAtPeriodEnd d;
          features := cast_features (plan_features entry);
          usage := usage d;
          createdAt := createdAt d;
          updatedAt := now |})
    (blank_subscription userId_ now);
  User_findByIdAndUpdate userId_
    (fun _ => {| subscription_plan := plan_;
                 subscription_startDate := Some now;
                 subscription_endDate := Some periodEnd;
                 subscription_features := Object_keys (plan_features entry) |}).

(** The webhook route's [switch (event.type)]. *)
Inductive Event :=
| checkout_session_completed (session : Session.t)
| customer_subscription_updated (subscription : StripeSubscription.t)
| customer_subscription_deleted (subscription : StripeSubscription.t)
| invoice_paid (invoice : Invoice.t)
| invoice_payment_failed (invoice : Invoice.t)
| other_event.

Definition webhook (event : Event) (now : Date) : M unit :=
  match event with
  | checkout_session_completed session => handleCheckoutComplete session now
  | customer_subscription_updated s => handleSubscriptionUpdate s now
  | customer_subscription_deleted s => handleSubscriptionDeleted s now
  | invoice_paid i => handleInvoicePaid i
  | invoice_payment_failed i => handlePaymentFailed i now
  | other_event => ret tt
  end.

(** What can happen to the process after an activation: the catalogue
    entry of a plan is replaced, or a webhook is delivered (the route
    answers 500 on a rejection and keeps the state the handler left). *)
Inductive Step :=
| SetPlan (k : string) (p : Plan)
| Deliver (event : Event) (now : Date).

Definition step (s : Step) (st : State) : State :=
  match s with
  | SetPlan k p => with_catalog (<[k := p]> (catalog st)) st
  | Deliver event now => snd (webhook event now st)
  end.

Definition run (l : list Step) (st : State) : State :=
  fold_left (fun st s => step s st) l st.

Definition is_checkout (s : Step) : bool :=
  match s with
  | Deliver (checkout_session_completed _) _ => true
  | _ => false
  end.

End Gateway.

(** ** Entitlement and usage gate (model methods) *)

(** [x || 0] on a number. *)
Definition or_zero (x : Z) : Z := if (x =? 0)%Z then 0 else x.

(** The assignment [this.usage = { ... }] of [resetUsage]. *)
Definition resetUsage_usage (u : Usage) (now : Date) : Usage :=
  {| currentProjects := or_zero (currentProjects u);
     aiTutorMinutesUsed := 0;
     codeExecutionsUsed := 0;
     storageUsedGB := or_zero (storageUsedGB u);
     lastResetDate := now |}.

Definition resetUsage (this : Subscription) (now : Date) : M unit :=
  save this (set_usage (resetUsage_usage (usage this) now) this) now.

Definition canUseFeature (this : Subscription) (feature : string) : bool :=
  if String.eqb feature "createProject" then
    (currentProjects (usage this) <? maxProjects (features this))%Z
  else if String.eqb feature "aiTutor" then
    (aiTutorMinutesUsed (usage this) <? aiTutorMinutes (features this))%Z
  else if String.eqb feature "codeExecution" then
    (codeExecutionsUsed (usage this) <? codeExecutions (features this))%Z
  else if String.eqb feature "prioritySupport" then prioritySupport (features this)
  else if String.eqb feature "advancedAnalytics" then advancedAnalytics (features this)
  else if String.eqb feature "sso" then ssoEnabled (features this)
  else if String.eqb feature "api" then apiAccess (features this)
  else true.

(** Modelled from the spec: [recordUsage(accountId, capability, delta)]
    is not in the sources; the spec says it increments the relevant
    counter by an atomic increment.  This is the increment it applies to
    the account's Subscription, on the counter [canUseFeature] compares
    for that capability; the counters are unbounded numbers. *)
Definition recordUsage (capability : string) (delta : Z) (this : Subscription) : Subscription :=
  let u := usage this in
  if String.eqb capability "createProject" then
    set_usage {| currentProjects := currentProjects u + delta;
                 aiTutorMinutesUsed := aiTutorMinutesUsed u;
                 codeExecutionsUsed := codeExecutionsUsed u;
                 storageUsedGB := storageUsedGB u;
                 lastResetDate := lastResetDate u |} this
  else if String.eqb capability "aiTutor" then
    set_usage {| currentProjects := currentProjects u;
                 aiTutorMinutesUsed := aiTutorMinutesUsed u + delta;
                 codeExecutionsUsed := codeExecutionsUsed u;
                 storageUsedGB := storageUsedGB u;
                 lastResetDate := lastResetDate u |} this
  else if String.eqb capability "codeExecution" then
    set_usage {| currentProjects := currentProjects u;
                 aiTutorMinutesUsed := aiTutorMinutesUsed u;
                 codeExecutionsUsed := codeExecutionsUsed u + delta;
                 storageUsedGB := storageUsedGB u;
                 lastResetDate := lastResetDate u |} this
  else this.

(** ** Calendar arithmetic of [Date] *)

Definition msPerDay : Z := 86400000.

Definition Day (t : Date) : Z := t / msPerDay.
Definition TimeWithinDay (t : Date) : Z := t mod msPerDay.

(** Year, month (1..12) and day of month of a day number counted from the
    epoch, in the proleptic Gregorian calendar. *)
Definition civil_from_days (z0 : Z) : Z * Z * Z :=
  let z := z0 + 719468 in
  let era := z / 146097 in
  let doe := z - era * 146097 in
  let yoe := (doe - doe / 1460 + doe / 36524 - doe / 146096) / 365 in
  let doy := doe - (365 * yoe + yoe / 4 - yoe / 100) in
  let mp := (5 * doy + 2) / 153 in
  let d := doy - (153 * mp + 2) / 5 + 1 in
  let m := if (mp <? 10)%Z then mp + 3 else mp - 9 in
  let y := yoe + era * 400 + (if (m <=? 2)%Z then 1 else 0) in
  (y, m, d).

(** Day number of the first of month [m] (1..12) of year [y0]. *)
Definition days_from_civil (y0 m d : Z) : Z :=
  let y := if (m <=? 2)%Z then y0 - 1 else y0 in
  let era := y / 400 in
  let yoe := y - era * 400 in
  let doy := (153 * (if (2 <? m)%Z then m - 3 else m + 9) + 2) / 5 + d - 1 in
  let doe := yoe * 365 + yoe / 4 - yoe / 100 + doy in
  era * 146097 + doe - 719468.

Definition YearFromTime (t : Date) : Z := fst (fst (civil_from_days (Day t))).
Definition MonthFromTime (t : Date) : Z := snd (fst (civil_from_days (Day t))) - 1.
Definition DateFromTime (t : Date) : Z := snd (civil_from_days (Day t)).

(** [MakeDay(year, month, date)]: the month index may lie outside 0..11
    and carries into the year; the date carries into the following days. *)
Definition MakeDay (year month date : Z) : Z :=
  let ym := year + month / 12 in
  let mn := month mod 12 in
  days_from_civil ym (mn + 1) 1 + date - 1.

Definition MakeDate (day time : Z) : Date := day * msPerDay + time.

(** [TimeClip]: a time value more than 8.64e15 ms away from the epoch is
    not a date.  [None] is the Invalid Date. *)
Definition TimeClip (t : Z) : option Date :=
  if (Z.abs t <=? 8640000000000000)%Z then Some t else None.

(** The time zone with no offset. *)
Definition utc_zone (t : Z) : Z := 0.

Section TimeZone.

(** The process time zone: its offset from UTC in milliseconds, at a UTC
    instant ([LocalTZA(t, true)]) and at a local time value
    ([LocalTZA(t, false)]). *)
Variable LocalTZA_of_utc : Z -> Z.
Variable LocalTZA_of_local : Z -> Z.

Definition LocalTime (t : Date) : Z := t + LocalTZA_of_utc t.
Definition UTC (t : Z) : Z := t - LocalTZA_of_local t.

(** [d.getMonth()], for a valid date [d]. *)
Definition Date_getMonth (t : Date) : Z := MonthFromTime (LocalTime t).

(** The date after [d.setMonth(month)], for a valid date [d]: the local
    calendar date with the month replaced, turned back into an instant and
    clipped to the range of dates. *)
Definition Date_setMonth (t : Date) (month : Z) : option Date :=
  let local := LocalTime t in
  TimeClip
    (UTC (MakeDate (MakeDay (YearFromTime local) month (DateFromTime local))
            (TimeWithinDay local))).

End TimeZone.

(** ** Revenue aggregation (model statics) *)

Record MRRData := { totalMRR : Qc; subscriberCount : Z }.

(** [this.countDocuments(filter)] *)
Definition countDocuments (p : Subscription -> bool) (st : State) : Z :=
  Z.of_nat (length (List.filter p (subscriptions st))).

(** The [$match] stage of [getMRR]. *)
Definition mrr_match (d : Subscription) : bool :=
  String.eqb (status d) "active" && negb (String.eqb (plan d) "free").

(** The aggregation pipeline: [$group] with [_id: null] yields one group
    when some document reaches it and no group otherwise. *)
Definition aggregate_mrr (st : State) : list MRRData :=
  match List.filter mrr_match (subscriptions st) with
  | [] => []
  | matched =>
      [ {| totalMRR := foldr (fun d acc => (mrr d + acc)%Qc) 0%Qc matched;
           subscriberCount := Z.of_nat (length matched) |} ]
  end.

Definition getMRR (st : State) : MRRData :=
  match aggregate_mrr st with
  | r :: _ => r
  | [] => {| totalMRR := 0%Qc; subscriberCount := 0 |}
  end.

Definition getARR (st : State) : Qc := (totalMRR (getMRR st) * Q2Qc 12)%Qc.

Definition churn_total_filter (startDate_ : Date) (d : Subscription) : bool :=
  (createdAt d <? startDate_)%Z && String.eqb (status d) "active".

Definition churn_churned_filter (startDate_ : Date) (d : Subscription) : bool :=
  match canceledAt d with
  | Some c => (startDate_ <=? c)%Z
  | None => false
  end
  && in_enum ["canceled"; "expired"] (status d).

(** [getChurnRate(months)], run at the instant [now] in the process time
    zone.  When [startDate] has become the Invalid Date, the first query
    cannot cast it to the type of [createdAt] and rejects. *)
Definition getChurnRate (LocalTZA_of_utc LocalTZA_of_local : Z -> Z)
    (months : Z) (now : Date) (st : State) : Result Qc :=
  match Date_setMonth LocalTZA_of_utc LocalTZA_of_local now
          (Date_getMonth LocalTZA_of_utc now - months) with
  | None => Throw CastError
  | Some startDate_ =>
      let totalAtStart := countDocuments (churn_total_filter startDate_) st in
      let churned := countDocuments (churn_churned_filter startDate_) st in
      Ok (if (0 <? totalAtStart)%Z
          then (Q2Qc (inject_Z churned) / Q2Qc (inject_Z totalAtStart) * Q2Qc 100)%Qc
          else 0%Qc)
  end.

(** ** Invariant of the entitlement snapshot *)

(** The documents of a given [_id] all hold the entitlements [f]. *)
Definition keeps (i : nat) (f : Features) (st : State) : Prop :=
  forall d, In d (subscriptions st) -> _id d = i -> features d = f.

(** ** Sample data *)

Definition zero_usage (t : Date) : Usage :=
  {| currentProjects := 0; aiTutorMinutesUsed := 0; codeExecutionsUsed := 0;
     storageUsedGB := 0; lastResetDate := t |}.

(** An active monthly subscriber of [pro], as a completed checkout leaves it. *)
Definition sub_pro : Subscription :=
  {| _id := 1; userId := "u1"; plan := "pro"; status := "active";
     billingCycle := monthly; currency := "USD"; amount := 49; mrr := Q2Qc 49;
     stripeCustomerId := Some "cus_1"; stripeSubscriptionId := Some "sub_1";
     startDate := 1700000000000;
     currentPeriodStart := 1700000000000; currentPeriodEnd := 1702592000000;
     trialEnd := None; canceledAt := None; cancelAtPeriodEnd := false;
     features := cast_features pro_features;
     usage := zero_usage 1700000000000;
     createdAt := 1700000000000; updatedAt := 1700000000000 |}.

Definition user_u1 : User :=
  {| subscription_plan := "pro";
     subscription_startDate := Some 1700000000000;
     subscription_endDate := Some 1702592000000;
     subscription_features := Object_keys pro_features |}.

Definition st_pro : State :=
  {| catalog := PLANS; subscriptions := [sub_pro]; users := {[ "u1" := user_u1 ]} |}.

(** Two updates of subscription [sub_1]: the renewal into the next period
    (period end T1 = 1705270400 s) and an update of the period before
    (period end T2 = 1700000000 s, older than T1 and than what [sub_pro]
    stores). *)
Definition ev_T1 : StripeSubscription.t :=
  {| StripeSubscription.id := "sub_1"; StripeSubscription.status := "active";
     StripeSubscription.current_period_start := 1702592000;
     StripeSubscription.current_period_end := 1705270400;
     StripeSubscription.cancel_at_period_end := false;
     StripeSubscription.canceled_at := None;
     StripeSubscription.trial_end := None |}.


(** An update reporting [unpaid], a status of the processor that is not
    in the schema's enumeration. *)
Definition ev_unpaid : StripeSubscription.t :=
  {| StripeSubscription.id := "sub_1"; StripeSubscription.status := "unpaid";
     StripeSubscription.current_period_start := 1702592000;
     StripeSubscription.current_period_end := 1705270400;
     StripeSubscription.cancel_at_period_end := false;
     StripeSubscription.canceled_at := None;
     StripeSubscription.trial_end := None |}.

(** A purchase of [enterprise] by user [u9], who signed up on the free
    plan; the processor's subscription [sub_9]; the update the processor
    sends when the customer cancels (it carries [canceled_at]); and the
    deletion at the end of the period. *)
Definition user_free : User :=
  {| subscription_plan := "free";
     subscription_startDate := None;
     subscription_endDate := None;
     subscription_features := Object_keys free_features |}.

Definition st_signup : State :=
  {| catalog := PLANS; subscriptions := []; users := {[ "u9" := user_free ]} |}.

Definition sub_9_at_checkout : StripeSubscription.t :=
  {| StripeSubscription.id := "sub_9"; StripeSubscription.status := "active";
     StripeSubscription.current_period_start := 1700000000;
     StripeSubscription.current_period_end := 1702592000;
     StripeSubscription.cancel_at_period_end := false;
     StripeSubscription.canceled_at := None;
     StripeSubscription.trial_end := None |}.

Definition retrieve_sample (i : string) : option StripeSubscription.t :=
  if String.eqb i "sub_9" then Some sub_9_at_checkout else None.

Definition session_ent : Session.t :=
  {| Session.metadata_userId := "u9"; Session.metadata_plan := "enterprise";
     Session.metadata_billingCycle := monthly;
     Session.metadata_currency := Some "USD";
     Session.customer := "cus_9"; Session.subscription := "sub_9" |}.

Definition session_pro : Session.t :=
  {| Session.metadata_userId := "u9"; Session.metadata_plan := "pro";
     Session.metadata_billingCycle := yearly;
     Session.metadata_currency := None;
     Session.customer := "cus_9"; Session.subscription := "sub_9" |}.

Definition ev_cancel_9 : StripeSubscription.t :=
  {| StripeSubscription.id := "sub_9"; StripeSubscription.status := "active";
     StripeSubscription.current_period_start := 1700000000;
     StripeSubscription.current_period_end := 1702592000;
     StripeSubscription.cancel_at_period_end := true;
     StripeSubscription.canceled_at := Some 1701000000;
     StripeSubscription.trial_end := None |}.

Definition ev_deleted_9 : StripeSubscription.t :=
  {| StripeSubscription.id := "sub_9"; StripeSubscription.status := "canceled";
     StripeSubscription.current_period_start := 1700000000;
     StripeSubscription.current_period_end := 1702592000;
     StripeSubscription.cancel_at_period_end := true;
     StripeSubscription.canceled_at := Some 1701000000;
     StripeSubscription.trial_end := None |}.

(** The state after the purchase and the cancellation request. *)
Definition st_ent : State :=
  snd (handleSubscriptionUpdate ev_cancel_9 1701000001000
         (snd (handleCheckoutComplete retrieve_sample session_ent 1700000005000
                 st_signup))).

(** The subscription [sub_1] deleted, and a failed invoice of its customer. *)
Definition ev_deleted_1 : StripeSubscription.t :=
  {| StripeSubscription.id := "sub_1"; StripeSubscription.status := "canceled";
     StripeSubscription.current_period_start := 1700000000;
     StripeSubscription.current_period_end := 1702592000;
     StripeSubscription.cancel_at_period_end := false;
     StripeSubscription.canceled_at := None;
     StripeSubscription.trial_end := None |}.

Definition st_canceled : State :=
  snd (handleSubscriptionDeleted ev_deleted_1 1702592001000 st_pro).

Definition invoice_cus_1 : Invoice.t :=
  {| Invoice.id := "in_1"; Invoice.customer := "cus_1" |}.

Definition st_empty : State :=
  {| catalog := PLANS; subscriptions := []; users := ∅ |}.

(** A starter subscriber one execution short of the quota, with projects
    and storage in use. *)
Definition sub_starter : Subscription :=
  {| _id := 2; userId := "u2"; plan := "starter"; status := "active";
     billingCycle := monthly; currency := "USD"; amount := 19; mrr := Q2Qc 19;
     stripeCustomerId := Some "cus_2"; stripeSubscriptionId := Some "sub_2";
     startDate := 1700000000000;
     currentPeriodStart := 1700000000000; currentPeriodEnd := 1702592000000;
     trialEnd := None; canceledAt := None; cancelAtPeriodEnd := false;
     features := cast_features starter_features;
     usage := {| currentProjects := 5; aiTutorMinutesUsed := 42;
                 codeExecutionsUsed := 499; storageUsedGB := 7;
                 lastResetDate := 1700000000000 |};
     createdAt := 1700000000000; updatedAt := 1700000000000 |}.

Definition st_starter : State :=
  {| catalog := PLANS; subscriptions := [sub_starter]; users := ∅ |}.

(** A collection for the churn rate on 15 June 2024 (1718409600000) over
    three months, so from 15 March 2024 (1710460800000): one subscriber
    active since 2023 and two subscriptions that ended in May 2024. *)
Definition sub_churned (i : nat) (st_ : string) (t : Date) : Subscription :=
  {| _id := i; userId := "u3"; plan := "starter"; status := st_;
     billingCycle := monthly; currency := "USD"; amount := 19; mrr := Q2Qc 19;
     stripeCustomerId := None; stripeSubscriptionId := None;
     startDate := 1712000000000;
     currentPeriodStart := 1712000000000; currentPeriodEnd := 1714592000000;
     trialEnd := None; canceledAt := Some t; cancelAtPeriodEnd := false;
     features := cast_features starter_features;
     usage := zero_usage 1712000000000;
     createdAt := 1712000000000; updatedAt := t |}.

Definition st_churn : State :=
  {| catalog := PLANS;
     subscriptions := [sub_pro; sub_churned 3 "canceled" 1715000000000;
                       sub_churned 4 "expired" 1716000000000];
     users := ∅ |}.

(** Only a subscription that ended inside the window, none active. *)
Definition st_all_churned : State :=
  {| catalog := PLANS;
     subscriptions := [sub_churned 3 "canceled" 1715000000000];
     users := ∅ |}.

(** A collection without an active paying subscription: a canceled one
    and an active one on the free plan. *)
Definition sub_free : Subscription :=
  {| _id := 5; userId := "u5"; plan := "free"; status := "active";
     billingCycle := monthly; currency := "USD"; amount := 0; mrr := 0%Qc;
     stripeCustomerId := None; stripeSubscriptionId := None;
     startDate := 1700000000000;
     currentPeriodStart := 1700000000000; currentPeriodEnd := 1702592000000;
     trialEnd := None; canceledAt := None; cancelAtPeriodEnd := false;
     features := default_features;
     usage := zero_usage 1700000000000;
     createdAt := 1700000000000; updatedAt := 1700000000000 |}.

Definition st_no_paying : State :=
  {| catalog := PLANS;
     subscriptions := [sub_churned 3 "canceled" 1715000000000; sub_free];
     users := ∅ |}.

(** A later edit of the catalogue's [pro] entry: fewer projects, no API
    access, a new key. *)
Definition pro_edited : Plan :=
  {| plan_name := "Pro";
     prices := {| price_monthly := 59; price_yearly := 590 |};
     plan_features :=
       [ ("maxProjects", JNum 5); ("maxCollaborators", JNum 1);
         ("aiTutorMinutes", JNum 50); ("codeExecutions", JNum 100);
         ("storageGB", JNum 2); ("customDomains", JNum 0);
         ("prioritySupport", JBool false); ("advancedAnalytics", JBool false);
         ("ssoEnabled", JBool true); ("apiAccess", JBool false);
         ("whiteLabeling", JBool true) ] |}.

Definition invoice_cus_9 : Invoice.t :=
  {| Invoice.id := "in_9"; Invoice.customer := "cus_9" |}.

(** What follows the activation of [u9] on [pro]: the catalogue edit,
    then a failed payment, an update and an invoice. *)
Definition steps_after_activation : list Step :=
  [ SetPlan "pro" pro_edited;
    Deliver (invoice_payment_failed invoice_cus_9) 1700100000000;
    Deliver (customer_subscription_updated ev_cancel_9) 1701000001000;
    Deliver (invoice_paid invoice_cus_9) 1701000002000;
    Deliver (customer_subscription_deleted ev_deleted_9) 1702592003000 ].

(** The state right after the activation of [u9] on [pro], yearly. *)
Definition st_activated : State :=
  snd (handleCheckoutComplete retrieve_sample session_pro 1700000005000 st_signup).

(** ** Virtuals of the Subscription schema *)

(** [isActive]: [this.status === 'active' && this.currentPeriodEnd > new Date()] *)
Definition isActive (this : Subscription) (now : Date) : bool :=
  String.eqb (status this) "active" && (now <? currentPeriodEnd this)%Z.

(** [Math.ceil(a / b)] for an integer [a] and a positive integer [b]. *)
Definition ceil_div (a b : Z) : Z := - ((- a) / b).

(** [daysRemaining]: [Math.max(0, Math.ceil(diff / (1000 * 60 * 60 * 24)))].
    [diff] is a whole number of milliseconds and the ceiling of the
    quotient is taken exactly, as the floating-point division gives it for
    any two dates less than 2^26 days apart. *)
Definition daysRemaining (this : Subscription) (now : Date) : Z :=
  let diff := currentPeriodEnd this - now in
  Z.max 0 (ceil_div diff (1000 * 60 * 60 * 24)).

(** ** Helpers for stating the revenue properties *)

(** The documents [getMRR]'s [$match] lets through, and the exact sum of
    their [mrr] taken as rationals.  (The database adds the stored doubles
    one after the other and rounds at each step: the total here is the
    number which that sum approximates.) *)
Definition paying (st : State) : list Subscription :=
  List.filter mrr_match (subscriptions st).

Definition sum_mrr (l : list Subscription) : Qc :=
  foldr (fun d acc => (mrr d + acc)%Qc) 0%Qc l.

(** The capability names [canUseFeature] has a case for. *)
Definition gated_features : list string :=
  ["createProject"; "aiTutor"; "codeExecution"; "prioritySupport";
   "advancedAnalytics"; "sso"; "api"].

(** ** Helpers for stating the store invariants *)

(** Each stored document has its own [_id] and each account has at most
    one Subscription. *)
Definition one_per_account (st : State) : Prop :=
  List.NoDup (map _id (subscriptions st))
  /\ List.NoDup (map userId (subscriptions st)).

(** What identifies a Subscription and what it was sold as: everything
    except the fields a processor notification reports ([status], the
    billing period, the cancellation fields) and [updatedAt]. *)
Definition sold_as (d : Subscription) :=
  (_id d, userId d, plan d, billingCycle d, currency d, amount d, mrr d,
   stripeCustomerId d, stripeSubscriptionId d, startDate d, trialEnd d,
   features d, usage d, createdAt d).

(** The account [u9] after its [enterprise] subscription was deleted, and
    the document it is left with. *)
Definition st_ent_deleted : State :=
  snd (handleSubscriptionDeleted ev_deleted_9 1702592003000 st_ent).

Definition sub_9_deleted : Subscription :=
  Eval vm_compute in default sub_pro (head (subscriptions st_ent_deleted)).

(** ** The request routes *)

(** The properties every object literal inherits from [Object.prototype]:
    indexing an object literal by one of these names yields a function or
    an object, which is truthy, and not one of the literal's own values. *)
Definition inherited_properties : list string :=
  ["constructor"; "__proto__"; "hasOwnProperty"; "isPrototypeOf";
   "propertyIsEnumerable"; "toLocaleString"; "toString"; "valueOf";
   "__defineGetter__"; "__defineSetter__"; "__lookupGetter__"; "__lookupSetter__"].

(** [array.includes(x)] on an array of strings. *)
Definition includes (x : string) (l : list string) : bool := existsb (String.eqb x) l.

(** The [stripeIds] of the catalogue entries, plan by plan:
    billing cycle, then currency, to the processor's price identifier.
    [free] and [enterprise] have none.  (The [Plan] record above carries
    the prices and the entitlements; the identifiers are kept in this
    table beside it.) *)
Definition stripeIds : list (string * list (string * list (string * string))) :=
  [ ("starter",
     [ ("monthly", [ ("USD", "price_starter_monthly_usd");
                     ("EUR", "price_starter_monthly_eur") ]);
       ("yearly", [ ("USD", "price_starter_yearly_usd");
                    ("EUR", "price_starter_yearly_eur") ]) ]);
    ("pro",
     [ ("monthly", [ ("USD", "price_pro_monthly_usd");
                     ("EUR", "price_pro_monthly_eur") ]);
       ("yearly", [ ("USD", "price_pro_yearly_usd");
                    ("EUR", "price_pro_yearly_eur") ]) ]) ].

(** [o[k]] on an object literal. *)
Fixpoint prop {A} (k : string) (o : list (string * A)) : option A :=
  match o with
  | [] => None
  | (k', v) :: r => if String.eqb k k' then Some v else prop k r
  end.

(** What [PLANS[plan].stripeIds?.[billingCycle]?.[currency]] can yield
    besides [undefined]: a price identifier of the table, or a value
    reached through a property that object literals inherit, named by the
    property names that lead to it from the literal indexed first
    ([["constructor"; "name"]] is [stripeIds.constructor.name]). *)
Inductive PriceValue :=
| PriceId (id : string)
| InheritedMember (path : list string).

(** Truthiness of such a value; [None] is [undefined]. *)
Definition truthy_price (o : option PriceValue) : bool :=
  match o with
  | Some (PriceId id) => negb (String.eqb id "")
  | Some (InheritedMember _) => true
  | None => false
  end.

(** [req.user] and the body of a checkout request. *)
Record ReqUser := {
  user_id : string;
  user_email : string;
  user_username : string;
  user_roles : list string
}.

Record CheckoutBody := {
  body_plan : string;
  body_billingCycle : option string;
  body_currency : option string
}.

(** The argument of [stripe.checkout.sessions.create], as far as it
    depends on the request. *)
Record SessionParams := {
  sp_customer : string;
  sp_price : PriceValue;
  sp_metadata_userId : string;
  sp_metadata_plan : string;
  sp_metadata_billingCycle : string;
  sp_metadata_currency : string;
  sp_trial_period_days : Z
}.

(** The calls a route makes to the payment processor, in order. *)
Inductive StripeCall :=
| customers_retrieve (customer : string)
| customers_create (email userId username : string)
| checkout_sessions_create (params : SessionParams)
| subscriptions_update (subscription : string) (cancel_at_period_end : bool).

Inductive CheckoutResponse :=
| CheckoutCreated (sessionId url : string)       (* 200 *)
| CheckoutBadRequest (message : string)          (* 400 *)
| CheckoutFailed.                                (* 500, from the catch *)

Definition active_of_user (uid : string) (d : Subscription) : bool :=
  bool_decide (userId d = uid) && String.eqb (status d) "active".

Section Routes.

(** The processor's answers: a customer id, a session id with its URL;
    [None] is a rejected call. *)
Variable stripe_customers_retrieve : string -> option string.
Variable stripe_customers_create : string -> string -> string -> option string.
Variable stripe_checkout_sessions_create : SessionParams -> option (string * string).

(** Whether [o[a][b]] is truthy, for an object literal [o] and a name [a]
    it inherits ([o[a]] is then a built-in function or object, and
    [o[a][b]] one of the properties of that). *)
Variable inherited_member_truthy : string -> string -> bool.

Variable stripe_subscriptions_update : string -> bool -> option unit.

(** [PLANS[plan].stripeIds?.[billingCycle]?.[currency]], [None] when it
    is [undefined] or, through inherited properties, falsy.  Indexing an
    object literal of the table by a name it inherits yields a built-in
    function or object: a truthy value at the last step, something to
    index further at the step before.  Plans without [stripeIds], and the
    built-in values that [PLANS[plan]] is for an inherited name, have no
    property [stripeIds]. *)
Definition price_id (plan_ billingCycle_ currency_ : string) : option PriceValue :=
  match prop plan_ stripeIds with
  | Some cycles =>
      match prop billingCycle_ cycles with
      | Some currencies =>
          match prop currency_ currencies with
          | Some id => Some (PriceId id)
          | None =>
              if includes currency_ inherited_properties
              then Some (InheritedMember [currency_])
              else None
          end
      | None =>
          if includes billingCycle_ inherited_properties
             && inherited_member_truthy billingCycle_ currency_
          then Some (InheritedMember [billingCycle_; currency_])
          else None
      end
  | None => None
  end.

(** The process time zone (see [LocalTime] and [UTC]). *)
Variable LocalTZA_of_utc : Z -> Z.
Variable LocalTZA_of_local : Z -> Z.

(** [POST /create-checkout-session]: the processor calls made and the
    response.  The route writes nothing to the collections.  [PLANS[plan]]
    is truthy for the keys of the catalogue and for the inherited property
    names. *)
Definition createCheckoutSession (user : ReqUser) (body : CheckoutBody) (st : State)
    : list StripeCall * CheckoutResponse :=
  let plan_ := body_plan body in
  let billingCycle_ := default "monthly" (body_billingCycle body) in
  let currency_ := default "USD" (body_currency body) in
  if negb (bool_decide (is_Some (catalog st !! plan_))
           || includes plan_ inherited_properties)
     || String.eqb plan_ "free" then
    ([], CheckoutBadRequest "Invalid plan selected")
  else
    let existingSubscription :=
      find (active_of_user (user_id user)) (subscriptions st) in
    let existing_customer := existingSubscription ≫= stripeCustomerId in
    let customer_call :=
      if truthy_str existing_customer
      then customers_retrieve (default "" existing_customer)
      else customers_create (user_email user) (user_id user) (user_username user) in
    let customer :=
      if truthy_str existing_customer
      then stripe_customers_retrieve (default "" existing_customer)
      else stripe_customers_create (user_email user) (user_id user) (user_username user) in
    match customer with
    | None => ([customer_call], CheckoutFailed)
    | Some customer_id =>
        let priceId := price_id plan_ billingCycle_ currency_ in
        if negb (truthy_price priceId) then
          ([customer_call], CheckoutBadRequest "Price not configured for this plan")
        else
          let params :=
            {| sp_customer := customer_id;
               sp_price := default (PriceId "") priceId;
               sp_metadata_userId := user_id user;
               sp_metadata_plan := plan_;
               sp_metadata_billingCycle := billingCycle_;
               sp_metadata_currency := currency_;
               sp_trial_period_days :=
                 if String.eqb plan_ "starter" || String.eqb plan_ "pro" then 14 else 0 |} in
          match stripe_checkout_sessions_create params with
          | None => ([customer_call; checkout_sessions_create params], CheckoutFailed)
          | Some (sessionId, url) =>
              ([customer_call; checkout_sessions_create params],
               CheckoutCreated sessionId url)
          end
    end.

(** [GET /subscription] *)
Inductive SubscriptionView :=
| StoredSubscription (d : Subscription)
| FreeDefault (plan_ status_ : string) (features_ : list (string * JsVal)).

(** [.sort({ createdAt: -1 })] followed by taking the first document:
    a document with the latest [createdAt] ([findOne] keeps the earlier
    one of two equally recent documents). *)
Definition latest (l : list Subscription) : option Subscription :=
  foldr (fun d acc =>
           match acc with
           | Some m => if (createdAt m <=? createdAt d)%Z then Some d else Some m
           | None => Some d
           end) None l.

Definition getSubscription (user : ReqUser) (st : State) : Result SubscriptionView :=
  match latest (List.filter (by_userId (user_id user)) (subscriptions st)) with
  | Some subscription => Ok (StoredSubscription subscription)
  | None =>
      match catalog st !! "free" with
      | Some free => Ok (FreeDefault "free" "active" (plan_features free))
      | None => Throw TypeError
      end
  end.

(** [POST /cancel].  The response carries the document as the save left
    it in memory, stamped when it was written. *)
Inductive CancelResponse :=
| CancelScheduled (d : Subscription)   (* 200, with the subscription *)
| CancelNotFound                       (* 404 *)
| CancelFailed.                        (* 500, from the catch *)

Definition cancel (user : ReqUser) (now : Date) (st : State)
    : list StripeCall * CancelResponse * State :=
  match find (active_of_user (user_id user)) (subscriptions st) with
  | None => ([], CancelNotFound, st)
  | Some subscription =>
      if negb (truthy_str (stripeSubscriptionId subscription)) then
        ([], CancelNotFound, st)
      else
        let sid := default "" (stripeSubscriptionId subscription) in
        match stripe_subscriptions_update sid true with
        | None => ([subscriptions_update sid true], CancelFailed, st)
        | Some _ =>
            let assigned := set_cancelAtPeriodEnd true subscription in
            match save subscription assigned now st with
            | (Ok _, st') =>
                ([subscriptions_update sid true],
                 CancelScheduled
                   (if decide (assigned = subscription) then assigned
                    else set_updatedAt now assigned),
                 st')
            | (Throw _, st') =>
                ([subscriptions_update sid true], CancelFailed, st')
            end
        end
  end.

(** [GET /metrics].  [Promise.all] rejects when [getChurnRate] does, and
    the route answers 500 from its catch. *)
Record Metrics := {
  metrics_mrr : Qc;
  metrics_arr : Qc;
  metrics_subscribers : Z;
  metrics_churnRate : Qc
}.

Inductive MetricsResponse :=
| MetricsForbidden            (* 403 *)
| MetricsOk (m : Metrics)     (* 200 *)
| MetricsFailed.              (* 500, from the catch *)

Definition metrics (user : ReqUser) (now : Date) (st : State) : MetricsResponse :=
  if negb (existsb (String.eqb "admin") (user_roles user)) then MetricsForbidden
  else
    let mrrData := getMRR st in
    match getChurnRate LocalTZA_of_utc LocalTZA_of_local 3 now st with
    | Ok churnRate =>
        MetricsOk {| metrics_mrr := totalMRR mrrData;
                     metrics_arr := getARR st;
                     metrics_subscribers := subscriberCount mrrData;
                     metrics_churnRate := churnRate |}
    | Throw _ => MetricsFailed
    end.

End Routes.

(** Sample requests and processor answers for the routes. *)
Definition req_u9 : ReqUser :=
  {| user_id := "u9"; user_email := "u9@example.com"; user_username := "nine";
     user_roles := ["user"] |}.

Definition req_u1 : ReqUser :=
  {| user_id := "u1"; user_email := "u1@example.com"; user_username := "one";
     user_roles := ["user"] |}.

Definition body_pro : CheckoutBody :=
  {| body_plan := "pro"; body_billingCycle := None; body_currency := None |}.

Definition body_enterprise : CheckoutBody :=
  {| body_plan := "enterprise"; body_billingCycle := Some "yearly";
     body_currency := Some "USD" |}.

Definition retrieve_customer_sample (c : string) : option string := Some c.
Definition create_customer_sample (email uid name : string) : option string :=
  Some "cus_new".
Definition create_session_sample (p : SessionParams) : option (string * string) :=
  Some ("cs_1", "https://checkout.example/cs_1").
Definition update_subscription_sample (s : string) (b : bool) : option unit := Some tt.
Definition inherited_truthy_sample (a b : string) : bool :=
  String.eqb a "constructor" && String.eqb b "name".


(** ** The Organization model *)

Module Organization.

(** An element of [members].  [joinedAt] takes its default, the time of
    creation, when a member is pushed without one. *)
Record Member := {
  userId : string;
  role : string;
  invitedBy : option string;
  joinedAt : Date;
  status : string
}.

(** An Organization document, with the paths that carry a validator or
    that the methods and the static read or write: [settings], [billing],
    [teams], [salesInfo], [logo], [domain], the other limits and usage
    counters and the rest of [contract] carry no validator and are left
    out.  Strings are sequences of code units. *)
Record t := {
  name : string;
  slug : string;
  plan : string;
  subscription : string;
  owner : string;
  members : list Member;
  limits_maxMembers : Z;
  usage_currentMembers : Z;
  isActive : bool;
  contract_acv : option Qc
}.

Definition set_members (l : list Member) (c : Z) (this : t) : t :=
  {| name := name this; slug := slug this; plan := plan this;
     subscription := subscription this; owner := owner this;
     members := l;
     limits_maxMembers := limits_maxMembers this;
     usage_currentMembers := c;
     isActive := isActive this; contract_acv := contract_acv this |}.

(** *** Schema validators *)

Definition plan_enum : list string := ["enterprise"; "team"].
Definition role_enum : list string := ["owner"; "admin"; "instructor"; "member"].
Definition status_enum : list string := ["active"; "invited"; "suspended"].

(** A character of [[a-z0-9-]]. *)
Definition slug_char (c : Ascii.ascii) : bool :=
  let n := Ascii.nat_of_ascii c in
  ((97 <=? n)%nat && (n <=? 122)%nat) || ((48 <=? n)%nat && (n <=? 57)%nat)
  || (n =? 45)%nat.

(** [/^[a-z0-9-]+$/] *)
Definition slug_match (s : string) : bool :=
  negb (String.eqb s "") && forallb slug_char (String.list_ascii_of_string s).

Definition validate_member (m : Member) : bool :=
  in_enum role_enum (role m) && in_enum status_enum (status m).

(** [name]: required, [maxlength: 100]; [slug]: required, [match];
    [plan]: enum; each member: the [role] and [status] enums.
    ([subscription], [owner] and the members' [userId], all required, are
    always present in a [t].) *)
Definition validate (this : t) : bool :=
  negb (String.eqb (name this) "") && (String.length (name this) <=? 100)%nat
  && slug_match (slug this)
  && in_enum plan_enum (plan this)
  && forallb validate_member (members this).

(** What calling a method that ends in [return this.save()] gives: an
    exception thrown before anything was assigned, or the document as
    assigned in memory with the save rejected by validation, or the
    document as assigned and saved. *)
Inductive Outcome :=
| Thrown (message : string)
| Rejected (this' : t)
| Saved (this' : t).

Definition save (this' : t) : Outcome :=
  if validate this' then Saved this' else Rejected this'.

(** The document a call leaves in memory. *)
Definition document (this : t) (o : Outcome) : t :=
  match o with
  | Thrown _ => this
  | Rejected this' => this'
  | Saved this' => this'
  end.

(** *** Virtual, methods and static *)

Definition memberCount (this : t) : Z :=
  Z.of_nat (length (List.filter (fun m => String.eqb (status m) "active") (members this))).

Definition is_user (u : string) (m : Member) : bool := String.eqb (userId m) u.

Definition addMember (userId_ : string) (role_ : option string)
    (invitedBy_ : option string) (now : Date) (this : t) : Outcome :=
  if existsb (is_user userId_) (members this) then
    Thrown "User is already a member"
  else if (limits_maxMembers this <=? usage_currentMembers this)%Z then
    Thrown "Maximum member limit reached"
  else
    save (set_members
            (members this ++ [ {| userId := userId_;
                                  role := default "member" role_;
                                  invitedBy := invitedBy_;
                                  joinedAt := now;
                                  status := "active" |} ])%list
            (usage_currentMembers this + 1)
            this).

(** [members.findIndex(...)], [None] for [-1]. *)
Fixpoint findIndex (p : Member -> bool) (l : list Member) : option nat :=
  match l with
  | [] => None
  | m :: r => if p m then Some 0%nat else S <$> findIndex p r
  end.

(** [members.splice(index, 1)] *)
Definition splice1 (index : nat) (l : list Member) : list Member :=
  (firstn index l ++ skipn (S index) l)%list.

Definition removeMember (userId_ : string) (this : t) : Outcome :=
  match findIndex (is_user userId_) (members this) with
  | None => Thrown "User is not a member"
  | Some index =>
      if String.eqb (default "" (role <$> nth_error (members this) index)) "owner" then
        Thrown "Cannot remove owner"
      else
        save (set_members (splice1 index (members this))
                (Z.max 0 (usage_currentMembers this - 1))
                this)
  end.

Definition getMember (userId_ : string) (this : t) : option Member :=
  find (is_user userId_) (members this).

(** The literal [rolePermissions]. *)
Definition rolePermissions : list (string * list string) :=
  [ ("owner", ["*"]);
    ("admin", ["manage_members"; "manage_teams"; "manage_settings"; "view_billing"]);
    ("instructor", ["create_content"; "manage_teams"; "view_analytics"]);
    ("member", ["view_content"; "submit_work"]) ].

(** Indexing [rolePermissions] by an inherited property name yields a
    value that is not an array, and calling [includes] on it throws. *)
Definition hasPermission (userId_ permission : string) (this : t) : Result bool :=
  match getMember userId_ this with
  | None => Ok false
  | Some member =>
      match prop (role member) rolePermissions with
      | Some permissions => Ok (includes "*" permissions || includes permission permissions)
      | None =>
          if includes (role member) inherited_properties then Throw TypeError
          else Ok false
      end
  end.

Record ACVData := { totalACV : Qc; customerCount : Z }.

(** The [$match] stage of [getTotalACV]: [isActive: true] and
    ['contract.acv': { $exists: true, $gt: 0 }]. *)
Definition acv_match (o : t) : bool :=
  isActive o && match contract_acv o with
                | Some a => bool_decide (0 < a)%Qc
                | None => false
                end.

Definition acv_of (o : t) : Qc := default 0%Qc (contract_acv o).

Definition getTotalACV (collection : list t) : ACVData :=
  match List.filter acv_match collection with
  | [] => {| totalACV := 0%Qc; customerCount := 0 |}
  | matched =>
      {| totalACV := foldr (fun o acc => (acv_of o + acc)%Qc) 0%Qc matched;
         customerCount := Z.of_nat (length matched) |}
  end.

(** The bookkeeping the two methods maintain: the counter
    [usage.currentMembers] is the number of members, and no user is a
    member twice. *)
Definition consistent (this : t) : Prop :=
  usage_currentMembers this = Z.of_nat (length (members this))
  /\ List.NoDup (map userId (members this)).

End Organization.

(** An organization with its owner and one suspended member, one seat
    short of its limit of three. *)
Definition member_alice : Organization.Member :=
  {| Organization.userId := "alice"; Organization.role := "owner";
     Organization.invitedBy := None; Organization.joinedAt := 1700000000000;
     Organization.status := "active" |}.

Definition member_bob : Organization.Member :=
  {| Organization.userId := "bob"; Organization.role := "instructor";
     Organization.invitedBy := Some "alice"; Organization.joinedAt := 1700000100000;
     Organization.status := "suspended" |}.

Definition org_acme : Organization.t :=
  {| Organization.name := "Acme Learning"; Organization.slug := "acme-learning";
     Organization.plan := "team"; Organization.subscription := "sub_doc_1";
     Organization.owner := "alice";
     Organization.members := [member_alice; member_bob];
     Organization.limits_maxMembers := 3;
     Organization.usage_currentMembers := 2;
     Organization.isActive := true;
     Organization.contract_acv := Some (Q2Qc 12000) |}.

Definition org_trial : Organization.t :=
  {| Organization.name := "Trial Org"; Organization.slug := "trial-org";
     Organization.plan := "team"; Organization.subscription := "sub_doc_2";
     Organization.owner := "carol";
     Organization.members := [];
     Organization.limits_maxMembers := 50;
     Organization.usage_currentMembers := 0;
     Organization.isActive := true;
     Organization.contract_acv := None |}.

(** ** Sanity checks of the embedding on concrete data *)

Example date_2024_06_15 :
  civil_from_days (Day 1718409600000) = (2024, 6, 15).
Proof. reflexivity. Qed.

Example setMonth_minus_3 :
  Date_setMonth utc_zone utc_zone 1718409600000
    (Date_getMonth utc_zone 1718409600000 - 3) = Some 1710460800000.
Proof. reflexivity. Qed.

(** 31 May minus three months is 31 February, which carries to 2 March. *)
Example setMonth_carry :
  civil_from_days
    <$> (Day <$> Date_setMonth utc_zone utc_zone 1717113600000
                   (Date_getMonth utc_zone 1717113600000 - 3))
  = Some (2024, 3, 2).
Proof. reflexivity. Qed.

Example setMonth_across_year :
  civil_from_days
    <$> (Day <$> Date_setMonth utc_zone utc_zone 1705276800000
                   (Date_getMonth utc_zone 1705276800000 - 3))
  = Some (2023, 10, 15).
Proof. reflexivity. Qed.

Example PLANS_pro_price : prices <$> PLANS !! "pro"
  = Some {| price_monthly := 49; price_yearly := 490 |}.
Proof. reflexivity. Qed.

Example update_runs :
  map (fun d => (status d, currentPeriodStart d, currentPeriodEnd d, updatedAt d))
    (subscriptions (snd (handleSubscriptionUpdate ev_T1 1702600000000 st_pro)))
  = [("active", 1702592000000, 1705270400000, 1702600000000)].
Proof. vm_compute. reflexivity. Qed.

Example st_ent_check :
  map (fun d => (plan d, status d, canceledAt d, cancelAtPeriodEnd d)) (subscriptions st_ent)
  = [("enterprise", "active", Some 1701000000000, true)].
Proof. vm_compute. reflexivity. Qed.

(** 490 / 12 and the numerals used for rates are the expected rationals. *)
Example mrr_yearly_pro : (Q2Qc 490 / Q2Qc 12)%Qc = Q2Qc (245 # 6).
Proof. apply Qc_is_canon. reflexivity. Qed.

Example rate_numerals : Q2Qc 200 = Q2Qc (200 # 1) /\ Q2Qc 100 = Q2Qc (100 # 1).
Proof. split; apply Qc_is_canon; reflexivity. Qed.

(** The bundles of [free], [starter] and [pro] have the same ten keys;
    [enterprise] has two more. *)
Example bundle_keys :
  Object_keys starter_features = Object_keys free_features
  /\ Object_keys pro_features = Object_keys free_features
  /\ length (Object_keys enterprise_features) = 12%nat.
Proof. repeat split. Qed.

(** * Properties *)

(** ** Documents and collections *)

Lemma set_updatedAt_self d : set_updatedAt (updatedAt d) d = d.
Proof. by destruct d. Qed.

Lemma find_updateFirst_id p l d d' :
  find p l = Some d -> p d' = true -> _id d' = _id d ->
  find p (updateFirst (has_id (_id d')) (fun _ => d') l) = Some d'.
Proof.
  intros Hf Hp Hid. induction l as [|x r IH]; simpl in *; [discriminate|].
  destruct (p x) eqn:Hx.
  - inversion Hf; subst x. unfold has_id at 1.
    rewrite Hid, Nat.eqb_refl. simpl. by rewrite Hp.
  - destruct (has_id (_id d') x); simpl.
    + by rewrite Hp.
    + rewrite Hx. by apply IH.
Qed.

Lemma save_invalid loaded doc now st :
  validate doc = false -> save loaded doc now st = (Throw ValidationError, st).
Proof. intros Hv. unfold save. by rewrite Hv. Qed.

Lemma save_unmodified doc now st :
  validate doc = true -> save doc doc now st = (Ok tt, st).
Proof. intros Hv. unfold save. rewrite Hv. by rewrite decide_True. Qed.

(** A valid save of a document found by a filter that the assignments do
    not disturb: the filter finds the assigned document afterwards, up to
    its [updatedAt]. *)
Lemma save_found p loaded doc now st :
  find p (subscriptions st) = Some loaded ->
  _id doc = _id loaded ->
  (forall t, p (set_updatedAt t doc) = true) ->
  validate doc = true ->
  exists st' t,
    save loaded doc now st = (Ok tt, st')
    /\ find p (subscriptions st') = Some (set_updatedAt t doc)
    /\ users st' = users st /\ catalog st' = catalog st.
Proof.
  intros Hf Hid Hp Hv. unfold save. rewrite Hv.
  destruct (decide (doc = loaded)) as [->|Hne].
  - exists st, (updatedAt loaded). by rewrite set_updatedAt_self.
  - eexists _, now. split; [reflexivity|]. split; [|done]. simpl.
    apply (find_updateFirst_id p _ loaded (set_updatedAt now doc)); auto.
Qed.

(** ** [handleSubscriptionUpdate] *)

Lemma update_assign_id ev d : _id (update_assign ev d) = _id d.
Proof. unfold update_assign. by destruct (truthy_num _). Qed.

Lemma update_assign_validate ev d :
  validate (update_assign ev d)
  = in_enum status_enum (StripeSubscription.status ev) && validate_rest d.
Proof. unfold update_assign. by destruct (truthy_num _). Qed.


Lemma update_assign_filter i ev t d :
  by_stripeSubscriptionId i (set_updatedAt t (update_assign ev d))
  = by_stripeSubscriptionId i d.
Proof. unfold update_assign. by destruct (truthy_num _). Qed.


Lemma update_assign_features ev d : features (update_assign ev d) = features d.
Proof. unfold update_assign. by destruct (truthy_num _). Qed.

(** Assigning the same event again changes nothing. *)
Lemma update_assign_again ev t d :
  update_assign ev (set_updatedAt t (update_assign ev d))
  = set_updatedAt t (update_assign ev d).
Proof. unfold update_assign. by destruct (truthy_num _). Qed.

Lemma find_filter_true (p : Subscription -> bool) l d : find p l = Some d -> p d = true.
Proof. intros H. by apply find_some in H as [_ ?]. Qed.

Lemma handleSubscriptionUpdate_missing ev now st :
  find (by_stripeSubscriptionId (StripeSubscription.id ev)) (subscriptions st) = None ->
  handleSubscriptionUpdate ev now st = (Ok tt, st).
Proof.
  intros Hf. unfold handleSubscriptionUpdate, bind, Subscription_findOne.
  by rewrite Hf.
Qed.

Lemma handleSubscriptionUpdate_found ev now st d :
  find (by_stripeSubscriptionId (StripeSubscription.id ev)) (subscriptions st) = Some d ->
  handleSubscriptionUpdate ev now st = save d (update_assign ev d) now st.
Proof.
  intros Hf. unfold handleSubscriptionUpdate, bind, Subscription_findOne.
  by rewrite Hf.
Qed.





(** C2, refuted as stated.  The update [ev_unpaid] finds the record of
    [sub_1] and is rejected by validation; replayed on the state the first
    application left, it is rejected again: the second application does
    error. *)
Lemma replay_of_rejected_update_fails :
  find (by_stripeSubscriptionId (StripeSubscription.id ev_unpaid))
    (subscriptions st_pro) = Some sub_pro
  /\ fst (handleSubscriptionUpdate ev_unpaid 1702600000000 st_pro)
     = Throw ValidationError
  /\ fst (handleSubscriptionUpdate ev_unpaid 1702600005000
            (snd (handleSubscriptionUpdate ev_unpaid 1702600000000 st_pro)))
     = Throw ValidationError.
Proof. repeat split; vm_compute; reflexivity. Qed.

(** C2, as amended.  Replaying a [SubscriptionUpdated] event is
    idempotent: applied to the state its first application left, the
    handler leaves that very state and ends exactly as the first
    application ended.  So the stored state after two applications is the
    state after one, the second application does not fail when the first
    did not, and an event the first application rejected is rejected
    again, the store unchanged.  This holds for every state and every
    event, at whatever times the two deliveries happen. *)
Theorem handleSubscriptionUpdate_idempotent ev now1 now2 st :
  handleSubscriptionUpdate ev now2 (snd (handleSubscriptionUpdate ev now1 st))
  = handleSubscriptionUpdate ev now1 st.
Proof.
  destruct (find (by_stripeSubscriptionId (StripeSubscription.id ev))
              (subscriptions st)) as [d|] eqn:Hf.
  - rewrite (handleSubscriptionUpdate_found _ now1 _ _ Hf).
    destruct (validate (update_assign ev d)) eqn:Hv.
    + destruct (save_found _ d (update_assign ev d) now1 st Hf) as (st1 & t & E & F & _);
        auto using update_assign_id.
      { intros t. rewrite update_assign_filter. by apply find_filter_true in Hf. }
      rewrite E. simpl.
      rewrite (handleSubscriptionUpdate_found _ now2 _ _ F).
      rewrite update_assign_again. apply save_unmodified.
      rewrite <- Hv. unfold update_assign. by destruct (truthy_num _).
    + rewrite (save_invalid _ _ _ _ Hv). simpl.
      rewrite (handleSubscriptionUpdate_found _ now2 _ _ Hf).
      by apply save_invalid.
  - rewrite (handleSubscriptionUpdate_missing _ now1 _ Hf). simpl.
    by apply handleSubscriptionUpdate_missing.
Qed.

(** C3, refuted as stated.  The update [ev_unpaid] reports a status
    outside the enumeration for the existing record of [sub_1]; the
    handler fails, and the stored status is still [active], not
    [past_due]. *)
Lemma unknown_status_not_mapped :
  in_enum status_enum (StripeSubscription.status ev_unpaid) = false
  /\ find (by_stripeSubscriptionId (StripeSubscription.id ev_unpaid))
       (subscriptions st_pro) = Some sub_pro
  /\ fst (handleSubscriptionUpdate ev_unpaid 1702600000000 st_pro)
     = Throw ValidationError
  /\ map status
       (subscriptions (snd (handleSubscriptionUpdate ev_unpaid 1702600000000 st_pro)))
     = ["active"]
  /\ ~ (exists d,
          find (by_stripeSubscriptionId (StripeSubscription.id ev_unpaid))
            (subscriptions
               (snd (handleSubscriptionUpdate ev_unpaid 1702600000000 st_pro)))
          = Some d
          /\ status d = "past_due").
Proof.
  repeat split; try (vm_compute; reflexivity).
  intros (d & Hd & Hs). vm_compute in Hd. inversion Hd; subst d.
  vm_compute in Hs. discriminate Hs.
Qed.

(** C3, as amended.  The handler assigns the reported status as it is;
    when that status is outside the schema's enumeration and the record
    exists, the save is rejected by validation: the handler fails with a
    validation error and the stored state, the record's status included,
    is unchanged.  The status is never replaced by [past_due]. *)
Theorem update_unknown_status_rejected ev now st d :
  find (by_stripeSubscriptionId (StripeSubscription.id ev)) (subscriptions st) = Some d ->
  in_enum status_enum (StripeSubscription.status ev) = false ->
  handleSubscriptionUpdate ev now st = (Throw ValidationError, st).
Proof.
  intros Hf Hs. rewrite (handleSubscriptionUpdate_found _ _ _ _ Hf).
  apply save_invalid. by rewrite update_assign_validate, Hs.
Qed.

Lemma update_unknown_status_rejected_witness :
  handleSubscriptionUpdate ev_unpaid 1702600000000 st_pro
  = (Throw ValidationError, st_pro).
Proof.
  apply (update_unknown_status_rejected ev_unpaid 1702600000000 st_pro sub_pro);
    reflexivity.
Defined.

(** ** [handleSubscriptionDeleted] *)

Lemma handleSubscriptionDeleted_missing ev now st :
  find (by_stripeSubscriptionId (StripeSubscription.id ev)) (subscriptions st) = None ->
  handleSubscriptionDeleted ev now st = (Ok tt, st).
Proof.
  intros Hf. unfold handleSubscriptionDeleted, bind, Subscription_findOne.
  by rewrite Hf.
Qed.

Lemma handleSubscriptionDeleted_found ev now st d :
  find (by_stripeSubscriptionId (StripeSubscription.id ev)) (subscriptions st) = Some d ->
  handleSubscriptionDeleted ev now st
  = bind (save d (deleted_assign now d) now)
      (fun _ => User_findByIdAndUpdate (userId d)
         (fun u => {| subscription_plan := "free";
                      subscription_startDate := subscription_startDate u;
                      subscription_endDate := Some now;
                      subscription_features := subscription_features u |})) st.
Proof.
  intros Hf. unfold handleSubscriptionDeleted, bind at 1, Subscription_findOne.
  by rewrite Hf.
Qed.

(** C5, refuted as stated.  In [st_ent] the record of [sub_9] already has
    [canceledAt] set (to the processor's [canceled_at], by the earlier
    update); the deletion replaces it by the time of delivery.  The
    account's summary keeps the key list it had (here the twelve keys of
    the [enterprise] bundle), which is not the key list of the free
    bundle. *)
Lemma deleted_overwrites_canceledAt :
  map canceledAt (subscriptions st_ent) = [Some 1701000000000]
  /\ fst (handleSubscriptionDeleted ev_deleted_9 1702592003000 st_ent) = Ok tt
  /\ map canceledAt
       (subscriptions (snd (handleSubscriptionDeleted ev_deleted_9 1702592003000 st_ent)))
     = [Some 1702592003000]
  /\ subscription_features
       <$> users (snd (handleSubscriptionDeleted ev_deleted_9 1702592003000 st_ent)) !! "u9"
     = Some (Object_keys enterprise_features)
  /\ Object_keys enterprise_features <> Object_keys free_features
  /\ ~ (forall k, In k (Object_keys enterprise_features)
                  -> In k (Object_keys free_features)).
Proof.
  repeat split; try (vm_compute; reflexivity).
  - intros H. vm_compute in H. discriminate H.
  - intros H. specialize (H "whiteLabeling").
    assert (Hin : In "whiteLabeling" (Object_keys enterprise_features)).
    { vm_compute. tauto. }
    apply H in Hin. vm_compute in Hin.
    repeat (destruct Hin as [Hin|Hin]; [discriminate Hin|]). exact Hin.
Qed.

(** C5, as amended.  When a record with the event's processor
    subscription id exists (and passes the schema validators of its other
    fields), [handleSubscriptionDeleted] succeeds, stores [status =
    canceled] and [canceledAt = now] whether or not [canceledAt] was set
    before, and sets the owning account's summary plan to [free] and its
    end date to [now]; when no record matches, the handler changes nothing
    and does not fail. *)
Theorem handleSubscriptionDeleted_effect ev now st :
  (forall d,
      find (by_stripeSubscriptionId (StripeSubscription.id ev)) (subscriptions st)
      = Some d ->
      validate_rest d = true ->
      fst (handleSubscriptionDeleted ev now st) = Ok tt
      /\ (exists d',
            find (by_stripeSubscriptionId (StripeSubscription.id ev))
              (subscriptions (snd (handleSubscriptionDeleted ev now st))) = Some d'
            /\ status d' = "canceled" /\ canceledAt d' = Some now)
      /\ (forall u, users st !! userId d = Some u ->
            exists u',
              users (snd (handleSubscriptionDeleted ev now st)) !! userId d = Some u'
              /\ subscription_plan u' = "free"
              /\ subscription_endDate u' = Some now))
  /\ (find (by_stripeSubscriptionId (StripeSubscription.id ev)) (subscriptions st)
      = None ->
      handleSubscriptionDeleted ev now st = (Ok tt, st)).
Proof.
  split; [|apply handleSubscriptionDeleted_missing].
  intros d Hf Hr. rewrite (handleSubscriptionDeleted_found _ _ _ _ Hf).
  destruct (save_found _ d (deleted_assign now d) now st Hf)
    as (st1 & t & E & F & U & _); auto.
  { intros t. by apply find_filter_true in Hf. }
  unfold bind. rewrite E. simpl. split; [done|]. split.
  - eexists. split; [exact F|]. done.
  - intros u Hu. rewrite U, lookup_alter_eq, Hu. simpl. eauto.
Qed.

Lemma handleSubscriptionDeleted_effect_witness :
  (fst (handleSubscriptionDeleted ev_deleted_1 1702592001000 st_pro) = Ok tt
   /\ (exists d',
         find (by_stripeSubscriptionId "sub_1")
           (subscriptions (snd (handleSubscriptionDeleted ev_deleted_1 1702592001000 st_pro)))
         = Some d'
         /\ status d' = "canceled" /\ canceledAt d' = Some 1702592001000)
   /\ (forall u, users st_pro !! "u1" = Some u ->
         exists u',
           users (snd (handleSubscriptionDeleted ev_deleted_1 1702592001000 st_pro)) !! "u1"
           = Some u'
           /\ subscription_plan u' = "free"
           /\ subscription_endDate u' = Some 1702592001000))
  /\ handleSubscriptionDeleted ev_deleted_1 1702592001000 st_empty = (Ok tt, st_empty).
Proof.
  split.
  - apply (proj1 (handleSubscriptionDeleted_effect ev_deleted_1 1702592001000 st_pro)
             sub_pro); reflexivity.
  - apply (proj2 (handleSubscriptionDeleted_effect ev_deleted_1 1702592001000 st_empty)).
    reflexivity.
Defined.

(** ** [handlePaymentFailed] *)

(** C6, refuted as stated.  In [st_canceled] the record of customer
    [cus_1] is [canceled]; a failed invoice of that customer sets it to
    [past_due]. *)
Lemma payment_failed_on_canceled :
  map status (subscriptions st_canceled) = ["canceled"]
  /\ find (by_stripeCustomerId (Invoice.customer invoice_cus_1))
       (subscriptions st_canceled) <> None
  /\ map status
       (subscriptions (snd (handlePaymentFailed invoice_cus_1 1702700000000 st_canceled)))
     = ["past_due"]
  /\ snd (handlePaymentFailed invoice_cus_1 1702700000000 st_canceled) <> st_canceled.
Proof.
  split; [vm_compute; reflexivity|]. split.
  { vm_compute. discriminate. }
  split; [vm_compute; reflexivity|].
  intros H. apply (f_equal (fun s => map status (subscriptions s))) in H.
  vm_compute in H. discriminate H.
Qed.

(** C6, as amended.  [handlePaymentFailed] does not look at the current
    status: whenever a record with the event's processor customer id
    exists (and passes the schema validators of its other fields), the
    handler succeeds and stores [status = past_due], whatever the status
    was; when no record matches, the handler changes nothing and does not
    fail. *)
Theorem handlePaymentFailed_effect invoice now st :
  (forall d,
      find (by_stripeCustomerId (Invoice.customer invoice)) (subscriptions st) = Some d ->
      validate_rest d = true ->
      fst (handlePaymentFailed invoice now st) = Ok tt
      /\ exists d',
           find (by_stripeCustomerId (Invoice.customer invoice))
             (subscriptions (snd (handlePaymentFailed invoice now st))) = Some d'
           /\ status d' = "past_due")
  /\ (find (by_stripeCustomerId (Invoice.customer invoice)) (subscriptions st) = None ->
      handlePaymentFailed invoice now st = (Ok tt, st)).
Proof.
  unfold handlePaymentFailed, bind, Subscription_findOne. simpl. split.
  - intros d Hf Hr. rewrite Hf.
    destruct (save_found _ d (set_status "past_due" d) now st Hf)
      as (st1 & t & E & F & _); auto.
    { intros t. by apply find_filter_true in Hf. }
    rewrite E. simpl. split; [done|]. eexists. split; [exact F|]. done.
  - intros Hf. by rewrite Hf.
Qed.

Lemma handlePaymentFailed_effect_witness :
  (fst (handlePaymentFailed invoice_cus_1 1702700000000 st_pro) = Ok tt
   /\ exists d',
        find (by_stripeCustomerId "cus_1")
          (subscriptions (snd (handlePaymentFailed invoice_cus_1 1702700000000 st_pro)))
        = Some d'
        /\ status d' = "past_due")
  /\ handlePaymentFailed invoice_cus_1 1702700000000 st_empty = (Ok tt, st_empty).
Proof.
  split.
  - apply (proj1 (handlePaymentFailed_effect invoice_cus_1 1702700000000 st_pro)
             sub_pro); reflexivity.
  - apply (proj2 (handlePaymentFailed_effect invoice_cus_1 1702700000000 st_empty)).
    reflexivity.
Defined.

(** ** Usage gate *)

Lemma recordUsage_codeExecution delta this :
  usage (recordUsage "codeExecution" delta this)
  = {| currentProjects := currentProjects (usage this);
       aiTutorMinutesUsed := aiTutorMinutesUsed (usage this);
       codeExecutionsUsed := codeExecutionsUsed (usage this) + delta;
       storageUsedGB := storageUsedGB (usage this);
       lastResetDate := lastResetDate (usage this) |}
  /\ features (recordUsage "codeExecution" delta this) = features this.
Proof. split; reflexivity. Qed.

Lemma recordUsage_iter (k : nat) this :
  codeExecutionsUsed (usage (Nat.iter k (recordUsage "codeExecution" 1) this))
  = codeExecutionsUsed (usage this) + Z.of_nat k
  /\ features (Nat.iter k (recordUsage "codeExecution" 1) this) = features this.
Proof.
  induction k as [|k [IHu IHf]].
  - simpl. split; [lia|done].
  - rewrite Nat.iter_succ.
    destruct (recordUsage_codeExecution 1 (Nat.iter k (recordUsage "codeExecution" 1) this))
      as [Hu Hf].
    rewrite Hu, Hf. simpl. split; [lia|done].
Qed.

(** C7.  The gate compares a counter with its limit by strict
    inequality: each counter-gated capability is permitted exactly when
    used < limit.  With the [codeExecutions] limit 500 and 499 executions
    used, [canUseFeature] permits [codeExecution]; after one recorded use
    (500 used) it denies; every further recorded use keeps it denied and
    the counter is the exact sum 499 + k after k uses, so it neither wraps
    nor turns negative. *)
Theorem canUseFeature_boundary this :
  codeExecutions (features this) = 500 ->
  codeExecutionsUsed (usage this) = 499 ->
  (forall s,
      (canUseFeature s "createProject" = true
       <-> currentProjects (usage s) < maxProjects (features s))
      /\ (canUseFeature s "aiTutor" = true
          <-> aiTutorMinutesUsed (usage s) < aiTutorMinutes (features s))
      /\ (canUseFeature s "codeExecution" = true
          <-> codeExecutionsUsed (usage s) < codeExecutions (features s)))
  /\ canUseFeature this "codeExecution" = true
  /\ codeExecutionsUsed (usage (recordUsage "codeExecution" 1 this)) = 500
  /\ canUseFeature (recordUsage "codeExecution" 1 this) "codeExecution" = false
  /\ (forall k : nat,
        let s := Nat.iter (S k) (recordUsage "codeExecution" 1) this in
        codeExecutionsUsed (usage s) = 499 + Z.of_nat (S k)
        /\ 0 <= codeExecutionsUsed (usage s)
        /\ canUseFeature s "codeExecution" = false).
Proof.
  intros Hl Hu. split.
  { intros s. unfold canUseFeature. simpl. rewrite !Z.ltb_lt. tauto. }
  split.
  { unfold canUseFeature. simpl. rewrite Hl, Hu. reflexivity. }
  split.
  { simpl. lia. }
  split.
  { unfold canUseFeature. simpl. rewrite Hl, Hu. reflexivity. }
  intros k s. destruct (recordUsage_iter (S k) this) as [Hc Hf]. fold s in Hc, Hf.
  rewrite Hu in Hc. split; [exact Hc|]. split; [lia|].
  unfold canUseFeature. simpl String.eqb. cbv iota. rewrite Hc, Hf, Hl.
  apply Z.ltb_ge. lia.
Qed.

Lemma canUseFeature_boundary_witness :
  canUseFeature sub_starter "codeExecution" = true
  /\ canUseFeature (recordUsage "codeExecution" 1 sub_starter) "codeExecution" = false
  /\ codeExecutionsUsed
       (usage (recordUsage "codeExecution" 1 (recordUsage "codeExecution" 1 sub_starter)))
     = 501.
Proof.
  destruct (canUseFeature_boundary sub_starter) as (_ & H1 & _ & H2 & H3);
    [reflexivity | reflexivity |].
  split; [exact H1|]. split; [exact H2|]. exact (proj1 (H3 1%nat)).
Defined.

(** C9, refuted as stated.  [sub_starter] has 5 projects and 7 GB in
    use; after [resetUsage] the stored counters of projects and storage
    are still 5 and 7. *)
Lemma resetUsage_keeps_projects_and_storage :
  fst (resetUsage sub_starter 1702592000000 st_starter) = Ok tt
  /\ map usage (subscriptions (snd (resetUsage sub_starter 1702592000000 st_starter)))
     = [ {| currentProjects := 5; aiTutorMinutesUsed := 0; codeExecutionsUsed := 0;
            storageUsedGB := 7; lastResetDate := 1702592000000 |} ]
  /\ currentProjects (resetUsage_usage (usage sub_starter) 1702592000000) <> 0
  /\ storageUsedGB (resetUsage_usage (usage sub_starter) 1702592000000) <> 0.
Proof. repeat split; try (vm_compute; reflexivity); vm_compute; discriminate. Qed.

Lemma or_zero_id x : or_zero x = x.
Proof. unfold or_zero. destruct (Z.eqb_spec x 0); congruence. Qed.

(** C9, as amended.  For every stored, schema-valid Subscription,
    [resetUsage] succeeds and stores: metered AI-tutor minutes and code
    executions at zero, projects created and storage consumed at the
    values they had, and [lastResetDate] at the current time. *)
Theorem resetUsage_effect this now st :
  find (has_id (_id this)) (subscriptions st) = Some this ->
  validate this = true ->
  fst (resetUsage this now st) = Ok tt
  /\ exists d,
       find (has_id (_id this)) (subscriptions (snd (resetUsage this now st))) = Some d
       /\ aiTutorMinutesUsed (usage d) = 0
       /\ codeExecutionsUsed (usage d) = 0
       /\ currentProjects (usage d) = currentProjects (usage this)
       /\ storageUsedGB (usage d) = storageUsedGB (usage this)
       /\ lastResetDate (usage d) = now.
Proof.
  intros Hf Hv. unfold resetUsage.
  destruct (save_found _ this (set_usage (resetUsage_usage (usage this) now) this) now st Hf)
    as (st1 & t & E & F & _); auto.
  { intros t. unfold has_id. simpl. apply Nat.eqb_refl. }
  rewrite E. simpl. split; [done|]. eexists. split; [exact F|].
  simpl. rewrite !or_zero_id. done.
Qed.

Lemma resetUsage_effect_witness :
  fst (resetUsage sub_starter 1702592000000 st_starter) = Ok tt
  /\ exists d,
       find (has_id 2) (subscriptions (snd (resetUsage sub_starter 1702592000000 st_starter)))
       = Some d
       /\ aiTutorMinutesUsed (usage d) = 0
       /\ codeExecutionsUsed (usage d) = 0
       /\ currentProjects (usage d) = 5
       /\ storageUsedGB (usage d) = 7
       /\ lastResetDate (usage d) = 1702592000000.
Proof.
  apply (resetUsage_effect sub_starter 1702592000000 st_starter); reflexivity.
Defined.

(** ** Revenue aggregation *)

Lemma filter_none (p : Subscription -> bool) l :
  (forall d, In d l -> p d = false) -> List.filter p l = [].
Proof.
  induction l as [|x r IH]; intros H; simpl; [done|].
  rewrite (H x (or_introl eq_refl)). apply IH. intros d Hd. apply H. by right.
Qed.

(** C10.  When no stored Subscription is both [active] and on a plan
    other than [free], the aggregation yields no group and [getMRR]
    returns the explicit record with [totalMRR = 0] and
    [subscriberCount = 0]. *)
Theorem getMRR_no_paying st :
  (forall d, In d (subscriptions st) -> ~ (status d = "active" /\ plan d <> "free")) ->
  getMRR st = {| totalMRR := 0%Qc; subscriberCount := 0 |}.
Proof.
  intros H. unfold getMRR, aggregate_mrr.
  rewrite filter_none; [reflexivity|].
  intros d Hd. specialize (H d Hd). unfold mrr_match.
  destruct (String.eqb_spec (status d) "active") as [Hs|Hs]; [|reflexivity].
  destruct (String.eqb_spec (plan d) "free") as [Hp|Hp]; [reflexivity|].
  exfalso. apply H. by split.
Qed.

Lemma getMRR_no_paying_witness :
  getMRR st_no_paying = {| totalMRR := 0%Qc; subscriberCount := 0 |}.
Proof.
  apply getMRR_no_paying. intros d Hd [Hs Hp]. simpl in Hd.
  destruct Hd as [<-|[<-|[]]].
  - vm_compute in Hs. discriminate Hs.
  - apply Hp. reflexivity.
Defined.

Example getMRR_paying :
  getMRR st_churn = {| totalMRR := Q2Qc 49; subscriberCount := 1 |}.
Proof. vm_compute. reflexivity. Qed.

Lemma Qc_nonneg_inject n : 0 <= n -> (0 <= Q2Qc (inject_Z n))%Qc.
Proof.
  intros H. unfold Qcle, Q2Qc. cbn [this]. rewrite !Qred_correct.
  unfold Qle, inject_Z. cbn [Qnum Qden]. lia.
Qed.

Lemma Qc_nonneg_mult a b : (0 <= a -> 0 <= b -> 0 <= a * b)%Qc.
Proof.
  unfold Qcle, Qcmult, Q2Qc. cbn [this]. rewrite !Qred_correct. intros Ha Hb.
  by apply Qmult_le_0_compat.
Qed.

Lemma Qc_nonneg_inv a : (0 <= a -> 0 <= / a)%Qc.
Proof.
  unfold Qcle, Qcinv, Q2Qc. cbn [this]. rewrite !Qred_correct. intros Ha.
  by apply Qinv_le_0_compat.
Qed.

Lemma countDocuments_nonneg p st : 0 <= countDocuments p st.
Proof. unfold countDocuments. lia. Qed.

(** C8, refuted as stated.  On 15 June 2024, over three months, the
    collection [st_churn] has one subscription active since before the
    window and two that were canceled or expired inside it: the rate is
    200, above 100 (in UTC, and the same two hours east of it).  Over
    3300000 months the start of the window is not a date, and no rate is
    returned at all: the query rejects. *)
Lemma churn_rate_above_100 :
  Date_setMonth utc_zone utc_zone 1718409600000
    (Date_getMonth utc_zone 1718409600000 - 3) = Some 1710460800000
  /\ countDocuments (churn_total_filter 1710460800000) st_churn = 1
  /\ countDocuments (churn_churned_filter 1710460800000) st_churn = 2
  /\ getChurnRate utc_zone utc_zone 3 1718409600000 st_churn = Ok (Q2Qc 200)
  /\ (Q2Qc 100 < Q2Qc 200)%Qc
  /\ getChurnRate (fun _ => 7200000) (fun _ => 7200000) 3 1718409600000 st_churn
     = Ok (Q2Qc 200)
  /\ getChurnRate utc_zone utc_zone 3300000 1718409600000 st_churn = Throw CastError.
Proof. repeat split; vm_compute; reflexivity. Qed.

(** C8, as amended.  For every store state, current time, process time
    zone and window length: when the start of the window is a date,
    [getChurnRate] returns a rate that is never negative, and exactly 0
    when no Subscription is [active] with a creation date before the start
    of the window (no division happens then); the rate has no upper bound
    of 100, the two counts being of disjoint sets of records.  When the
    start of the window falls outside the range of dates (the Invalid
    Date), no rate is returned: the query rejects with a cast error. *)
Theorem getChurnRate_nonneg LocalTZA_of_utc LocalTZA_of_local months now st :
  match Date_setMonth LocalTZA_of_utc LocalTZA_of_local now
          (Date_getMonth LocalTZA_of_utc now - months) with
  | Some startDate_ =>
      exists rate,
        getChurnRate LocalTZA_of_utc LocalTZA_of_local months now st = Ok rate
        /\ (0 <= rate)%Qc
        /\ (countDocuments (churn_total_filter startDate_) st = 0 -> rate = 0%Qc)
  | None =>
      getChurnRate LocalTZA_of_utc LocalTZA_of_local months now st = Throw CastError
  end.
Proof.
  unfold getChurnRate.
  destruct (Date_setMonth _ _ now _) as [startDate_|]; [|reflexivity].
  eexists. split; [reflexivity|]. split.
  - destruct (Z.ltb_spec 0 (countDocuments (churn_total_filter startDate_) st)).
    + unfold Qcdiv. apply Qc_nonneg_mult; [apply Qc_nonneg_mult|].
      * apply Qc_nonneg_inject, countDocuments_nonneg.
      * apply Qc_nonneg_inv, Qc_nonneg_inject, countDocuments_nonneg.
      * apply (Qc_nonneg_inject 100). lia.
    + apply Qcle_refl.
  - intros ->. reflexivity.
Qed.

Lemma getChurnRate_nonneg_witness :
  (exists rate,
      getChurnRate utc_zone utc_zone 3 1718409600000 st_all_churned = Ok rate
      /\ (0 <= rate)%Qc
      /\ (countDocuments (churn_total_filter 1710460800000) st_all_churned = 0 ->
          rate = 0%Qc))
  /\ getChurnRate utc_zone utc_zone 3300000 1718409600000 st_churn = Throw CastError.
Proof.
  split.
  - exact (getChurnRate_nonneg utc_zone utc_zone 3 1718409600000 st_all_churned).
  - exact (getChurnRate_nonneg utc_zone utc_zone 3300000 1718409600000 st_churn).
Defined.

(** ** Entitlement snapshot *)

Lemma updateFirst_ids p f l :
  (forall x, p x = true -> _id (f x) = _id x) ->
  map _id (updateFirst p f l) = map _id l.
Proof.
  intros H. induction l as [|x r IH]; simpl; [done|].
  destruct (p x) eqn:Hx; simpl; [by rewrite H | by rewrite IH].
Qed.

Lemma updateFirst_In p f l d :
  In d (updateFirst p f l) ->
  In d l \/ exists x, In x l /\ p x = true /\ d = f x.
Proof.
  induction l as [|x r IH]; simpl; [tauto|].
  destruct (p x) eqn:Hx; simpl.
  - intros [<-|H]; [right; exists x; auto | left; auto].
  - intros [<-|H]; [left; auto|].
    destruct (IH H) as [?|(y & ? & ? & ?)]; [left; auto | right; exists y; auto].
Qed.

Lemma find_updateFirst_same p f l d :
  find p l = Some d -> p (f d) = true ->
  find p (updateFirst p f l) = Some (f d).
Proof.
  intros Hf Hp. induction l as [|x r IH]; simpl in *; [discriminate|].
  destruct (p x) eqn:Hx.
  - inversion Hf; subst x. simpl. by rewrite Hp.
  - simpl. rewrite Hx. by apply IH.
Qed.

Lemma find_app_new p l (x : Subscription) :
  find p l = None -> p x = true -> find p (l ++ [x]) = Some x.
Proof.
  intros Hf Hx. induction l as [|y r IH]; simpl in *; [by rewrite Hx|].
  destruct (p y); [discriminate | by apply IH].
Qed.

Lemma NoDup_id_inj l a b :
  List.NoDup (map _id l) -> In a l -> In b l -> _id a = _id b -> a = b.
Proof.
  induction l as [|x r IH]; simpl; [tauto|].
  intros Hnd Ha Hb Hid. inversion Hnd as [|? ? Hnotin Hnd']; subst.
  destruct Ha as [<-|Ha], Hb as [<-|Hb]; auto.
  - exfalso. apply Hnotin. rewrite Hid. by apply in_map.
  - exfalso. apply Hnotin. rewrite <- Hid. by apply in_map.
Qed.

Lemma fresh_id_above l d : In d l -> (_id d < fresh_id l)%nat.
Proof.
  unfold fresh_id. induction l as [|x r IH]; simpl; [tauto|].
  intros [<-|H]; [lia|]. specialize (IH H). lia.
Qed.

Lemma upsert_spec p upd blank st :
  List.NoDup (map _id (subscriptions st)) ->
  (forall x, _id (upd x) = _id x) ->
  (forall x, p (upd x) = p x) ->
  (forall i, p (blank i) = true) ->
  (forall i, _id (blank i) = i) ->
  exists st1 x,
    Subscription_findOneAndUpdate_upsert p upd blank st = (Ok tt, st1)
    /\ find p (subscriptions st1) = Some (upd x)
    /\ (forall d, In d (subscriptions st1) -> _id d = _id (upd x) -> d = upd x)
    /\ users st1 = users st /\ catalog st1 = catalog st.
Proof.
  intros Hnd Hid Hp Hb Hbi. unfold Subscription_findOneAndUpdate_upsert.
  destruct (find p (subscriptions st)) as [d0|] eqn:Hf.
  - eexists _, d0. split; [reflexivity|]. simpl.
    assert (Hfind : find p (updateFirst p upd (subscriptions st)) = Some (upd d0)).
    { apply find_updateFirst_same; [done|]. rewrite Hp. by apply find_filter_true in Hf. }
    split; [done|]. split; [|done].
    intros d Hd Hdi. apply (NoDup_id_inj (updateFirst p upd (subscriptions st))); auto.
    + by rewrite updateFirst_ids.
    + by apply find_some in Hfind as [? _].
  - eexists _, (blank (fresh_id (subscriptions st))). split; [reflexivity|]. simpl.
    split; [apply find_app_new; [done | by rewrite Hp]|]. split; [|done].
    intros d Hd Hdi. apply in_app_or in Hd as [Hd|[<-|[]]]; [|done].
    apply fresh_id_above in Hd. rewrite Hdi, Hid, Hbi in Hd. lia.
Qed.

Lemma save_keeps i f loaded doc now st :
  In loaded (subscriptions st) ->
  _id doc = _id loaded ->
  features doc = features loaded ->
  keeps i f st ->
  keeps i f (snd (save loaded doc now st))
  /\ map _id (subscriptions (snd (save loaded doc now st))) = map _id (subscriptions st).
Proof.
  intros Hin Hid Hfe Hk. unfold save.
  destruct (validate doc); [|done].
  destruct (decide (doc = loaded)); [done|]. simpl. split.
  - intros d Hd Hdi. apply updateFirst_In in Hd as [Hd|(x & _ & _ & ->)].
    + by apply Hk.
    + simpl in *. rewrite Hfe. apply Hk; [done | congruence].
  - apply updateFirst_ids. intros x Hx. unfold has_id in Hx.
    apply Nat.eqb_eq in Hx. simpl. congruence.
Qed.

Lemma find_In (p : Subscription -> bool) l d : find p l = Some d -> In d l.
Proof. intros H. by apply find_some in H as [? _]. Qed.

Section Snapshot.

Variable stripe_subscriptions_retrieve : string -> option StripeSubscription.t.

Lemma webhook_keeps i f event now st :
  is_checkout (Deliver event now) = false ->
  keeps i f st ->
  keeps i f (snd (webhook stripe_subscriptions_retrieve event now st))
  /\ map _id (subscriptions (snd (webhook stripe_subscriptions_retrieve event now st)))
     = map _id (subscriptions st).
Proof.
  intros Hc Hk. destruct event as [s|s|s|inv|inv|]; simpl in *; try done.
  - unfold handleSubscriptionUpdate, bind, Subscription_findOne. simpl.
    destruct (find _ (subscriptions st)) as [d|] eqn:Hf; [|done].
    apply save_keeps; eauto using find_In, update_assign_id, update_assign_features.
  - unfold handleSubscriptionDeleted, bind, Subscription_findOne. simpl.
    destruct (find _ (subscriptions st)) as [d|] eqn:Hf; [|done].
    destruct (save_keeps i f d (deleted_assign now d) now st) as [K I];
      eauto using find_In.
    destruct (save d (deleted_assign now d) now st) as [[[]|e] st1]; done.
  - unfold handlePaymentFailed, bind, Subscription_findOne. simpl.
    destruct (find _ (subscriptions st)) as [d|] eqn:Hf; [|done].
    apply save_keeps; eauto using find_In.
Qed.

Lemma run_keeps i f steps st :
  forallb (fun s => negb (is_checkout s)) steps = true ->
  keeps i f st ->
  keeps i f (run stripe_subscriptions_retrieve steps st)
  /\ map _id (subscriptions (run stripe_subscriptions_retrieve steps st))
     = map _id (subscriptions st).
Proof.
  revert st. induction steps as [|s r IH]; intros st Hs Hk; [done|].
  simpl in Hs. apply andb_prop in Hs as [Hs Hr]. apply negb_true_iff in Hs.
  unfold run. simpl. fold (run stripe_subscriptions_retrieve r).
  destruct s as [k p|event now].
  - simpl. destruct (IH (with_catalog (<[k:=p]> (catalog st)) st) Hr Hk) as [K I].
    by split.
  - simpl. destruct (webhook_keeps i f event now st Hs Hk) as [K I].
    destruct (IH _ Hr K) as [K' I']. split; [exact K' | exact (eq_trans I' I)].
Qed.

(** C4.  A completed checkout stores, in the account's Subscription, the
    entitlements of the plan's bundle as the catalogue holds it at that
    moment.  Whatever happens afterwards short of another
    checkout-completed event (the catalogue entry of that or any other
    plan replaced, any number of times, and update, deletion, invoice and
    payment-failure events delivered in between), that Subscription stays
    in the store and its [features] field stays the snapshot taken at
    activation. *)
Theorem entitlements_snapshot_isolated session now st processor_subscription entry :
  List.NoDup (map _id (subscriptions st)) ->
  stripe_subscriptions_retrieve (Session.subscription session)
  = Some processor_subscription ->
  catalog st !! Session.metadata_plan session = Some entry ->
  exists d,
    find (by_userId (Session.metadata_userId session))
      (subscriptions (snd (handleCheckoutComplete stripe_subscriptions_retrieve
                             session now st))) = Some d
    /\ plan d = Session.metadata_plan session
    /\ status d = "active"
    /\ features d = cast_features (plan_features entry)
    /\ forall steps,
         forallb (fun s => negb (is_checkout s)) steps = true ->
         let st' :=
           run stripe_subscriptions_retrieve steps
             (snd (handleCheckoutComplete stripe_subscriptions_retrieve session now st)) in
         (exists d', In d' (subscriptions st') /\ _id d' = _id d)
         /\ (forall d', In d' (subscriptions st') -> _id d' = _id d ->
               features d' = cast_features (plan_features entry)).
Proof.
  intros Hnd HR Hcat.
  unfold handleCheckoutComplete, bind, retrieve, PLANS_get, User_findByIdAndUpdate.
  rewrite HR, Hcat.
  match goal with
  | |- context [Subscription_findOneAndUpdate_upsert ?p ?u ?b st] =>
      destruct (upsert_spec p u b st Hnd) as (st1 & x & E & F & U & _);
        [done | done | intros i; by apply bool_decide_eq_true | done | ]
  end.
  rewrite E. simpl. eexists. split; [exact F|]. simpl.
  split; [done|]. split; [done|]. split; [done|].
  intros steps Hs.
  match type of F with
  | find _ _ = Some ?d0 =>
      destruct (run_keeps (_id d0) (features d0) steps
                  (with_users
                     (alter (fun _ => {|
                        subscription_plan := Session.metadata_plan session;
                        subscription_startDate := Some now;
                        subscription_endDate :=
                          Some (Date_of_seconds
                                  (StripeSubscription.current_period_end
                                     processor_subscription));
                        subscription_features := Object_keys (plan_features entry) |})
                        (Session.metadata_userId session) (users st1)) st1) Hs)
        as [K I]
  end.
  { intros d Hd Hdi. simpl in Hd. by rewrite (U d Hd Hdi). }
  split.
  - apply find_In in F. apply (in_map _id) in F. simpl in F, I.
    rewrite <- I in F. apply in_map_iff in F as (d' & ? & ?). by exists d'.
  - exact K.
Qed.
End Snapshot.

Lemma entitlements_snapshot_isolated_witness :
  catalog (run retrieve_sample steps_after_activation st_activated) !! "pro"
  = Some pro_edited
  /\ exists d,
       find (by_userId "u9") (subscriptions st_activated) = Some d
       /\ plan d = "pro"
       /\ features d = cast_features pro_features
       /\ (forall d',
             In d' (subscriptions (run retrieve_sample steps_after_activation st_activated)) ->
             _id d' = _id d ->
             features d' = cast_features pro_features).
Proof.
  split; [vm_compute; reflexivity|].
  destruct (entitlements_snapshot_isolated retrieve_sample session_pro 1700000005000
              st_signup sub_9_at_checkout PLANS_pro)
    as (d & F & P & _ & Fe & H);
    [apply List.NoDup_nil | reflexivity | reflexivity |].
  exists d. split; [exact F|]. split; [exact P|]. split; [exact Fe|].
  exact (proj2 (H steps_after_activation eq_refl)).
Defined.

(** The same run, computed: the catalogue's [pro] entry has changed, the
    stored entitlements have not. *)
Example snapshot_survives_catalogue_edit :
  map (fun d => (plan d, status d, mrr d, features d)) (subscriptions st_activated)
  = [("pro", "active", (Q2Qc 490 / Q2Qc 12)%Qc, cast_features pro_features)]
  /\ map features (subscriptions (run retrieve_sample steps_after_activation st_activated))
     = [cast_features pro_features]
  /\ cast_features (plan_features pro_edited) <> cast_features pro_features.
Proof.
  split; [vm_compute; reflexivity|]. split; [vm_compute; reflexivity|].
  intros H. vm_compute in H. discriminate H.
Qed.

(** * Further properties of the modelled code *)

(** ** Virtuals *)

Lemma ceil_div_bounds a b :
  0 < b -> b * (ceil_div a b - 1) < a <= b * ceil_div a b.
Proof.
  intros Hb. unfold ceil_div.
  pose proof (Z.div_mod (- a) b ltac:(lia)) as Hdm.
  pose proof (Z.mod_pos_bound (- a) b Hb) as Hm.
  nia.
Qed.

(** X1.  [daysRemaining] is never negative; it is 0 exactly when the
    period has ended ([currentPeriodEnd <= now]); while the period runs it
    is the number of days, rounded up, that remain; and a Subscription
    that [isActive] has at least one day remaining. *)
Theorem daysRemaining_spec this now :
  0 <= daysRemaining this now
  /\ (daysRemaining this now = 0 <-> currentPeriodEnd this <= now)
  /\ (now < currentPeriodEnd this ->
      msPerDay * (daysRemaining this now - 1) < currentPeriodEnd this - now
      /\ currentPeriodEnd this - now <= msPerDay * daysRemaining this now)
  /\ (isActive this now = true -> 1 <= daysRemaining this now).
Proof.
  unfold daysRemaining, isActive.
  change (1000 * 60 * 60 * 24) with msPerDay.
  pose proof (ceil_div_bounds (currentPeriodEnd this - now) msPerDay eq_refl) as Hc.
  unfold msPerDay in *.
  split; [lia|]. split; [split; intros; lia|]. split; [intros; lia|].
  intros H. apply andb_prop in H as [_ H]. apply Z.ltb_lt in H. lia.
Qed.

Lemma daysRemaining_spec_witness :
  msPerDay * (daysRemaining sub_pro 1702000000000 - 1)
  < currentPeriodEnd sub_pro - 1702000000000
  /\ currentPeriodEnd sub_pro - 1702000000000
     <= msPerDay * daysRemaining sub_pro 1702000000000.
Proof.
  apply (proj1 (proj2 (proj2 (daysRemaining_spec sub_pro 1702000000000)))).
  reflexivity.
Defined.

(** ** The gate and the state of the subscription *)

(** X2.  [canUseFeature] is fail-open: every capability name other than
    the seven it has a case for is permitted, whatever the Subscription. *)
Theorem canUseFeature_unknown_permitted this feature :
  ~ In feature gated_features ->
  canUseFeature this feature = true.
Proof.
  intros H. unfold canUseFeature.
  repeat match goal with
         | |- context [String.eqb feature ?s] =>
             destruct (String.eqb_spec feature s) as [->|_];
             [exfalso; apply H; unfold gated_features; simpl; tauto|]
         end.
  reflexivity.
Qed.

Lemma canUseFeature_unknown_permitted_witness :
  canUseFeature sub_free "whiteLabeling" = true.
Proof.
  apply canUseFeature_unknown_permitted. unfold gated_features. simpl.
  intros H. repeat (destruct H as [H|H]; [discriminate H|]). exact H.
Defined.

(** X3.  The gate reads neither [status] nor the billing period: after
    [handleSubscriptionDeleted] has stored [status = canceled], the stored
    record answers [canUseFeature] for every capability exactly as it did
    before the deletion. *)
Theorem gate_unchanged_by_deletion ev now st d :
  find (by_stripeSubscriptionId (StripeSubscription.id ev)) (subscriptions st) = Some d ->
  validate_rest d = true ->
  exists d',
    find (by_stripeSubscriptionId (StripeSubscription.id ev))
      (subscriptions (snd (handleSubscriptionDeleted ev now st))) = Some d'
    /\ status d' = "canceled"
    /\ forall feature, canUseFeature d' feature = canUseFeature d feature.
Proof.
  intros Hf Hr. rewrite (handleSubscriptionDeleted_found _ _ _ _ Hf).
  destruct (save_found _ d (deleted_assign now d) now st Hf)
    as (st1 & t & E & F & _); auto.
  { intros t. by apply find_filter_true in Hf. }
  unfold bind. rewrite E. simpl. eexists. split; [exact F|]. split; done.
Qed.

Lemma gate_unchanged_by_deletion_witness :
  exists d',
    find (by_stripeSubscriptionId "sub_1")
      (subscriptions (snd (handleSubscriptionDeleted ev_deleted_1 1702592001000 st_pro)))
    = Some d'
    /\ status d' = "canceled"
    /\ forall feature, canUseFeature d' feature = canUseFeature sub_pro feature.
Proof.
  apply (gate_unchanged_by_deletion ev_deleted_1 1702592001000 st_pro sub_pro);
    reflexivity.
Defined.

(** X4.  After [resetUsage] the two metered capabilities are open again
    exactly when their limit is positive, and [createProject] is answered
    as before the reset (its counter is carried over). *)
Theorem resetUsage_reopens_metered this now st :
  find (has_id (_id this)) (subscriptions st) = Some this ->
  validate this = true ->
  exists d,
    find (has_id (_id this)) (subscriptions (snd (resetUsage this now st))) = Some d
    /\ canUseFeature d "aiTutor" = (0 <? aiTutorMinutes (features this))%Z
    /\ canUseFeature d "codeExecution" = (0 <? codeExecutions (features this))%Z
    /\ canUseFeature d "createProject" = canUseFeature this "createProject".
Proof.
  intros Hf Hv. unfold resetUsage.
  destruct (save_found _ this (set_usage (resetUsage_usage (usage this) now) this) now st Hf)
    as (st1 & t & E & F & _); auto.
  { intros t. unfold has_id. simpl. apply Nat.eqb_refl. }
  rewrite E. simpl. eexists. split; [exact F|].
  unfold canUseFeature. simpl. rewrite or_zero_id. done.
Qed.

Lemma resetUsage_reopens_metered_witness :
  exists d,
    find (has_id 2) (subscriptions (snd (resetUsage sub_starter 1702592000000 st_starter)))
    = Some d
    /\ canUseFeature d "aiTutor" = true
    /\ canUseFeature d "codeExecution" = true
    /\ canUseFeature d "createProject" = true.
Proof.
  apply (resetUsage_reopens_metered sub_starter 1702592000000 st_starter); reflexivity.
Defined.

(** ** Failure of a webhook *)

Lemma save_throw_unchanged loaded doc now st e :
  fst (save loaded doc now st) = Throw e -> snd (save loaded doc now st) = st.
Proof.
  unfold save. destruct (validate doc); [|done].
  destruct (decide (doc = loaded)); simpl; [done | discriminate].
Qed.

(** X5.  A webhook whose handler fails leaves no partial write: whenever
    the handler of any event ends in an exception (a validation error, a
    read from a missing plan, a rejected processor call), the plan
    catalogue, the Subscription collection and the User collection are
    exactly as before the delivery. *)
Theorem webhook_failure_leaves_state retrieve_fn event now st e :
  fst (webhook retrieve_fn event now st) = Throw e ->
  snd (webhook retrieve_fn event now st) = st.
Proof.
  destruct event as [s|s|s|inv|inv|]; simpl; try discriminate.
  - unfold handleCheckoutComplete, bind, retrieve, PLANS_get,
      Subscription_findOneAndUpdate_upsert, User_findByIdAndUpdate.
    destruct (retrieve_fn (Session.subscription s)); [|done].
    destruct (catalog st !! Session.metadata_plan s); [|done].
    destruct (find _ (subscriptions st)); simpl; discriminate.
  - unfold handleSubscriptionUpdate, bind, Subscription_findOne. simpl.
    destruct (find _ (subscriptions st)); [|discriminate].
    apply save_throw_unchanged.
  - unfold handleSubscriptionDeleted, bind, Subscription_findOne,
      User_findByIdAndUpdate. simpl.
    destruct (find _ (subscriptions st)) as [d|]; [|discriminate].
    pose proof (save_throw_unchanged d (deleted_assign now d) now st) as H.
    destruct (save d (deleted_assign now d) now st) as [[[]|e'] st1]; simpl in *.
    + discriminate.
    + intros _. by apply (H e').
  - unfold handlePaymentFailed, bind, Subscription_findOne. simpl.
    destruct (find _ (subscriptions st)); [|discriminate].
    apply save_throw_unchanged.
Qed.

Lemma webhook_failure_leaves_state_witness :
  snd (webhook retrieve_sample (customer_subscription_updated ev_unpaid)
         1702600000000 st_pro) = st_pro.
Proof.
  apply (webhook_failure_leaves_state retrieve_sample
           (customer_subscription_updated ev_unpaid) 1702600000000 st_pro
           ValidationError).
  vm_compute. reflexivity.
Defined.

(** ** Shape of the collection after a save *)

Lemma updateFirst_split l loaded d' :
  List.NoDup (map _id l) -> In loaded l ->
  exists l1 l2 : list Subscription,
    l = (l1 ++ loaded :: l2)%list
    /\ updateFirst (has_id (_id loaded)) (fun _ => d') l = (l1 ++ d' :: l2)%list.
Proof.
  induction l as [|x r IH]; intros Hnd Hin; [destruct Hin|].
  simpl. destruct (has_id (_id loaded) x) eqn:Hx.
  - apply Nat.eqb_eq in Hx.
    assert (x = loaded) as ->.
    { apply (NoDup_id_inj (x :: r)); simpl; auto. }
    by exists [], r.
  - destruct Hin as [->|Hin].
    { unfold has_id in Hx. by rewrite Nat.eqb_refl in Hx. }
    inversion Hnd; subst.
    destruct (IH ltac:(assumption) Hin) as (l1 & l2 & -> & E).
    exists (x :: l1), l2. simpl. by rewrite E.
Qed.


(** A save either leaves the state as it is (rejected, or nothing
    modified) or replaces the loaded document, in place, by the assigned
    one stamped with [now]. *)
Lemma save_shape loaded doc now st :
  List.NoDup (map _id (subscriptions st)) ->
  In loaded (subscriptions st) ->
  _id doc = _id loaded ->
  exists l1 l2 : list Subscription,
    subscriptions st = (l1 ++ loaded :: l2)%list
    /\ (snd (save loaded doc now st) = st
        \/ (validate doc = true /\ doc <> loaded
            /\ save loaded doc now st
               = (Ok tt, with_subscriptions (l1 ++ set_updatedAt now doc :: l2)%list st))).
Proof.
  intros Hnd Hin Hid.
  destruct (updateFirst_split _ loaded (set_updatedAt now doc) Hnd Hin)
    as (l1 & l2 & E1 & E2).
  exists l1, l2. split; [done|]. unfold save.
  destruct (validate doc); [|by left].
  destruct (decide (doc = loaded)); [by left|].
  right. split; [done|]. split; [done|]. by rewrite Hid, E2.
Qed.

Lemma save_map_preserved {B} (g : Subscription -> B) loaded doc now st :
  List.NoDup (map _id (subscriptions st)) ->
  In loaded (subscriptions st) ->
  _id doc = _id loaded ->
  g (set_updatedAt now doc) = g loaded ->
  map g (subscriptions (snd (save loaded doc now st))) = map g (subscriptions st).
Proof.
  intros Hnd Hin Hid Hg.
  destruct (save_shape loaded doc now st Hnd Hin Hid) as (l1 & l2 & E & [H|(_ & _ & H)]).
  - by rewrite H.
  - rewrite H, E. simpl. rewrite !map_app. simpl. by rewrite Hg.
Qed.

Lemma save_users_catalog loaded doc now st :
  users (snd (save loaded doc now st)) = users st
  /\ catalog (snd (save loaded doc now st)) = catalog st.
Proof.
  unfold save. destruct (validate doc); [|done]. by destruct (decide (doc = loaded)).
Qed.

(** What a webhook other than a completed checkout does to the
    collection, for any projection [g] of a document that the handlers'
    assignments leave alone. *)
Lemma webhook_map_preserved {B} (g : Subscription -> B) retrieve_fn event now st :
  (forall v d, g (set_status v d) = g d) ->
  (forall v d, g (set_currentPeriodStart v d) = g d) ->
  (forall v d, g (set_currentPeriodEnd v d) = g d) ->
  (forall v d, g (set_cancelAtPeriodEnd v d) = g d) ->
  (forall v d, g (set_canceledAt v d) = g d) ->
  (forall v d, g (set_updatedAt v d) = g d) ->
  is_checkout (Deliver event now) = false ->
  List.NoDup (map _id (subscriptions st)) ->
  map g (subscriptions (snd (webhook retrieve_fn event now st)))
  = map g (subscriptions st).
Proof.
  intros G1 G2 G3 G4 G5 G6 Hc Hnd.
  destruct event as [s|s|s|inv|inv|]; simpl in *; try done.
  - unfold handleSubscriptionUpdate, bind, Subscription_findOne. simpl.
    destruct (find _ (subscriptions st)) as [d|] eqn:Hf; [|done].
    apply save_map_preserved; eauto using find_In, update_assign_id.
    unfold update_assign. destruct (truthy_num _);
      by rewrite G6, ?G5, G4, G3, G2, G1.
  - unfold handleSubscriptionDeleted, bind, Subscription_findOne,
      User_findByIdAndUpdate. simpl.
    destruct (find _ (subscriptions st)) as [d|] eqn:Hf; [|done].
    pose proof (save_map_preserved g d (deleted_assign now d) now st Hnd
                  (find_In _ _ _ Hf) eq_refl) as H.
    destruct (save d (deleted_assign now d) now st) as [[[]|e] st1]; simpl in *;
      apply H; unfold deleted_assign; by rewrite G6, G5, G1.
  - unfold handlePaymentFailed, bind, Subscription_findOne. simpl.
    destruct (find _ (subscriptions st)) as [d|] eqn:Hf; [|done].
    apply save_map_preserved; eauto using find_In. by rewrite G6, G1.
Qed.

(** X6.  A subscription-update, subscription-deletion, invoice-paid or
    payment-failed webhook never creates or removes a Subscription and
    never changes what a Subscription was sold as (its account, plan,
    cycle, currency, amount, [mrr], processor identifiers, entitlements,
    usage counters); it never adds or removes a user and never touches the
    catalogue.  (Stored documents have distinct [_id]s.) *)
Theorem notification_keeps_sold_as retrieve_fn event now st :
  is_checkout (Deliver event now) = false ->
  List.NoDup (map _id (subscriptions st)) ->
  map sold_as (subscriptions (snd (webhook retrieve_fn event now st)))
  = map sold_as (subscriptions st)
  /\ dom (users (snd (webhook retrieve_fn event now st))) = dom (users st)
  /\ catalog (snd (webhook retrieve_fn event now st)) = catalog st.
Proof.
  intros Hc Hnd. split.
  { by apply webhook_map_preserved. }
  destruct event as [s|s|s|inv|inv|]; simpl in *; try done.
  - unfold handleSubscriptionUpdate, bind, Subscription_findOne. simpl.
    destruct (find _ (subscriptions st)) as [d|]; [|done].
    destruct (save_users_catalog d (update_assign s d) now st) as [-> ->]. done.
  - unfold handleSubscriptionDeleted, bind, Subscription_findOne,
      User_findByIdAndUpdate. simpl.
    destruct (find _ (subscriptions st)) as [d|]; [|done].
    destruct (save_users_catalog d (deleted_assign now d) now st) as [U C].
    destruct (save d (deleted_assign now d) now st) as [[[]|e] st1]; simpl in *.
    + rewrite C. split; [|done]. rewrite <- U. apply dom_alter_L.
    + by rewrite U, C.
  - unfold handlePaymentFailed, bind, Subscription_findOne. simpl.
    destruct (find _ (subscriptions st)) as [d|]; [|done].
    destruct (save_users_catalog d (set_status "past_due" d) now st) as [-> ->]. done.
Qed.

Lemma notification_keeps_sold_as_witness :
  map sold_as
    (subscriptions
       (snd (webhook retrieve_sample (invoice_payment_failed invoice_cus_1)
               1702700000000 st_pro)))
  = map sold_as (subscriptions st_pro)
  /\ dom (users (snd (webhook retrieve_sample (invoice_payment_failed invoice_cus_1)
                        1702700000000 st_pro))) = dom (users st_pro)
  /\ catalog (snd (webhook retrieve_sample (invoice_payment_failed invoice_cus_1)
                     1702700000000 st_pro)) = catalog st_pro.
Proof.
  apply (notification_keeps_sold_as retrieve_sample
           (invoice_payment_failed invoice_cus_1) 1702700000000 st_pro);
    [reflexivity|].
  simpl. apply List.NoDup_cons; [intros [] | apply List.NoDup_nil].
Defined.

(** ** One Subscription per account *)

Lemma updateFirst_map {B} (g : Subscription -> B) p f l :
  (forall x, g (f x) = g x) -> map g (updateFirst p f l) = map g l.
Proof.
  intros H. induction l as [|x r IH]; simpl; [done|].
  destruct (p x); simpl; [by rewrite H | by rewrite IH].
Qed.

Lemma find_none_userId uid l :
  find (by_userId uid) l = None -> ~ In uid (map userId l).
Proof.
  intros Hf Hin. apply in_map_iff in Hin as (d & Hd & Hin).
  apply (find_none _ _ Hf) in Hin. unfold by_userId in Hin.
  by rewrite bool_decide_eq_true_2 in Hin.
Qed.

Lemma NoDup_snoc {A} (l : list A) x :
  List.NoDup l -> ~ In x l -> List.NoDup (l ++ [x])%list.
Proof.
  intros Hl Hx. apply List.NoDup_app; [done | |].
  - apply List.NoDup_cons; [intros [] | apply List.NoDup_nil].
  - intros a Ha [<-|[]]. by apply Hx.
Qed.

Lemma checkout_one_per_account retrieve_fn session now st :
  one_per_account st ->
  one_per_account (snd (handleCheckoutComplete retrieve_fn session now st)).
Proof.
  intros [Hid Hu].
  unfold handleCheckoutComplete, bind, retrieve, PLANS_get,
    Subscription_findOneAndUpdate_upsert, User_findByIdAndUpdate.
  destruct (retrieve_fn (Session.subscription session)); [|done].
  destruct (catalog st !! Session.metadata_plan session); [|done].
  destruct (find _ (subscriptions st)) eqn:Hf; unfold one_per_account; simpl.
  - by rewrite !updateFirst_map.
  - rewrite !map_app. simpl. split.
    + apply NoDup_snoc; [done|]. intros Hin.
      apply in_map_iff in Hin as (d & Hd & Hin).
      apply fresh_id_above in Hin. lia.
    + apply NoDup_snoc; [done|]. by apply find_none_userId.
Qed.

(** X7.  The store invariant "distinct [_id]s, and at most one
    Subscription per account" is kept by everything that can happen to the
    process: any sequence of catalogue replacements and webhook deliveries,
    completed checkouts included (a checkout for an account that has a
    Subscription updates it in place instead of adding a second one). *)
Theorem run_one_per_account retrieve_fn steps st :
  one_per_account st ->
  one_per_account (run retrieve_fn steps st).
Proof.
  revert st. induction steps as [|s r IH]; intros st H; [done|].
  unfold run. simpl. fold (run retrieve_fn r). apply IH.
  destruct s as [k p|event now]; [done|]. simpl.
  destruct (is_checkout (Deliver event now)) eqn:Hc.
  - destruct event; try discriminate. simpl. by apply checkout_one_per_account.
  - destruct H as [Hid Hu]. unfold one_per_account.
    rewrite (webhook_map_preserved _id), (webhook_map_preserved userId); done.
Qed.

Lemma run_one_per_account_witness :
  one_per_account
    (run retrieve_sample
       (Deliver (checkout_session_completed session_pro) 1700000005000
          :: steps_after_activation
          ++ [Deliver (checkout_session_completed session_ent) 1702600000000])%list
       st_signup).
Proof.
  apply run_one_per_account. split; apply List.NoDup_nil.
Defined.

(** ** Recurring revenue under the webhooks *)

Lemma getMRR_formula st :
  getMRR st = {| totalMRR := sum_mrr (paying st);
                 subscriberCount := Z.of_nat (length (paying st)) |}.
Proof.
  unfold getMRR, aggregate_mrr, paying. by destruct (List.filter _ _).
Qed.


Lemma save_shape_modified loaded doc now st :
  List.NoDup (map _id (subscriptions st)) ->
  In loaded (subscriptions st) ->
  _id doc = _id loaded ->
  validate doc = true ->
  doc <> loaded ->
  exists l1 l2 : list Subscription,
    subscriptions st = (l1 ++ loaded :: l2)%list
    /\ save loaded doc now st
       = (Ok tt, with_subscriptions (l1 ++ set_updatedAt now doc :: l2)%list st).
Proof.
  intros Hnd Hin Hid Hv Hne.
  destruct (updateFirst_split _ loaded (set_updatedAt now doc) Hnd Hin)
    as (l1 & l2 & E1 & E2).
  exists l1, l2. split; [done|]. unfold save.
  rewrite Hv, decide_False by done. by rewrite Hid, E2.
Qed.


(** A save that turns a document counted by [getMRR] into one that is
    not counted takes exactly that document out of what the aggregation
    matches. *)
Lemma save_leaves_paying loaded doc now st :
  List.NoDup (map _id (subscriptions st)) ->
  In loaded (subscriptions st) ->
  _id doc = _id loaded ->
  validate doc = true ->
  mrr_match loaded = true ->
  mrr_match (set_updatedAt now doc) = false ->
  doc <> loaded ->
  exists st' (k1 k2 : list Subscription),
    save loaded doc now st = (Ok tt, st')
    /\ paying st = (k1 ++ loaded :: k2)%list
    /\ paying st' = (k1 ++ k2)%list
    /\ subscriberCount (getMRR st) = subscriberCount (getMRR st') + 1.
Proof.
  intros Hnd Hin Hid Hv Hm Hm' Hne.
  destruct (save_shape_modified loaded doc now st Hnd Hin Hid Hv Hne)
    as (l1 & l2 & E & S).
  eexists _, (List.filter mrr_match l1), (List.filter mrr_match l2).
  split; [exact S|].
  rewrite !getMRR_formula. unfold paying. simpl. rewrite E.
  rewrite !List.filter_app. simpl. rewrite Hm, Hm'.
  split; [done|]. split; [done|].
  rewrite !length_app. simpl. lia.
Qed.

(** X8.  A failed payment takes the subscriber out of the recurring
    revenue: when [handlePaymentFailed] finds a valid record that [getMRR]
    counts (active, on a paid plan), the documents [getMRR] matches and
    sums afterwards are the ones it matched before, in the same order,
    without that record, and the subscriber count drops by exactly one.
    (Stored documents have distinct [_id]s.) *)
Theorem payment_failed_leaves_mrr invoice now st d :
  List.NoDup (map _id (subscriptions st)) ->
  find (by_stripeCustomerId (Invoice.customer invoice)) (subscriptions st) = Some d ->
  validate_rest d = true ->
  mrr_match d = true ->
  exists k1 k2 : list Subscription,
    paying st = (k1 ++ d :: k2)%list
    /\ paying (snd (handlePaymentFailed invoice now st)) = (k1 ++ k2)%list
    /\ subscriberCount (getMRR st)
       = subscriberCount (getMRR (snd (handlePaymentFailed invoice now st))) + 1.
Proof.
  intros Hnd Hf Hr Hm.
  unfold handlePaymentFailed, bind, Subscription_findOne. simpl. rewrite Hf.
  destruct (save_leaves_paying d (set_status "past_due" d) now st)
    as (st' & k1 & k2 & E & P & P' & C); eauto using find_In.
  { intros H. rewrite <- H in Hm. discriminate Hm. }
  rewrite E. simpl. by exists k1, k2.
Qed.

Lemma payment_failed_leaves_mrr_witness :
  exists k1 k2 : list Subscription,
    paying st_pro = (k1 ++ sub_pro :: k2)%list
    /\ paying (snd (handlePaymentFailed invoice_cus_1 1702700000000 st_pro))
       = (k1 ++ k2)%list
    /\ subscriberCount (getMRR st_pro)
       = subscriberCount
           (getMRR (snd (handlePaymentFailed invoice_cus_1 1702700000000 st_pro))) + 1.
Proof.
  apply (payment_failed_leaves_mrr invoice_cus_1 1702700000000 st_pro sub_pro);
    try reflexivity.
  simpl. apply List.NoDup_cons; [intros [] | apply List.NoDup_nil].
Defined.

(** X9.  A deletion takes the subscriber out of the recurring revenue in
    the same way: when [handleSubscriptionDeleted] finds a valid record
    that [getMRR] counts, the documents [getMRR] matches and sums
    afterwards are the ones it matched before, in the same order, without
    that record, and the subscriber count drops by exactly one.  (Stored
    documents have distinct [_id]s.) *)
Theorem deletion_leaves_mrr ev now st d :
  List.NoDup (map _id (subscriptions st)) ->
  find (by_stripeSubscriptionId (StripeSubscription.id ev)) (subscriptions st) = Some d ->
  validate_rest d = true ->
  mrr_match d = true ->
  exists k1 k2 : list Subscription,
    paying st = (k1 ++ d :: k2)%list
    /\ paying (snd (handleSubscriptionDeleted ev now st)) = (k1 ++ k2)%list
    /\ subscriberCount (getMRR st)
       = subscriberCount (getMRR (snd (handleSubscriptionDeleted ev now st))) + 1.
Proof.
  intros Hnd Hf Hr Hm. rewrite (handleSubscriptionDeleted_found _ _ _ _ Hf).
  destruct (save_leaves_paying d (deleted_assign now d) now st)
    as (st' & k1 & k2 & E & P & P' & C); eauto using find_In.
  { intros H. rewrite <- H in Hm. discriminate Hm. }
  unfold bind, User_findByIdAndUpdate. rewrite E. simpl.
  exists k1, k2. rewrite !getMRR_formula in *. unfold paying in *. simpl. done.
Qed.

Lemma deletion_leaves_mrr_witness :
  exists k1 k2 : list Subscription,
    paying st_pro = (k1 ++ sub_pro :: k2)%list
    /\ paying (snd (handleSubscriptionDeleted ev_deleted_1 1702592001000 st_pro))
       = (k1 ++ k2)%list
    /\ subscriberCount (getMRR st_pro)
       = subscriberCount
           (getMRR (snd (handleSubscriptionDeleted ev_deleted_1 1702592001000 st_pro)))
         + 1.
Proof.
  apply (deletion_leaves_mrr ev_deleted_1 1702592001000 st_pro sub_pro);
    try reflexivity.
  simpl. apply List.NoDup_cons; [intros [] | apply List.NoDup_nil].
Defined.



(** ** What a completed checkout stores *)




(** X12.  A completed checkout for an account that already has a
    Subscription re-uses that document: no document is added, and the new
    activation keeps the old document's [_id], creation date, start date,
    usage counters and cancellation fields ([canceledAt] and
    [cancelAtPeriodEnd] are not cleared by re-activation). *)
Theorem checkout_reuses_document retrieve_fn session now st processor_subscription entry d0 :
  retrieve_fn (Session.subscription session) = Some processor_subscription ->
  catalog st !! Session.metadata_plan session = Some entry ->
  find (by_userId (Session.metadata_userId session)) (subscriptions st) = Some d0 ->
  length (subscriptions (snd (handleCheckoutComplete retrieve_fn session now st)))
  = length (subscriptions st)
  /\ exists d,
       find (by_userId (Session.metadata_userId session))
         (subscriptions (snd (handleCheckoutComplete retrieve_fn session now st)))
       = Some d
       /\ status d = "active"
       /\ _id d = _id d0 /\ createdAt d = createdAt d0 /\ startDate d = startDate d0
       /\ usage d = usage d0
       /\ canceledAt d = canceledAt d0
       /\ cancelAtPeriodEnd d = cancelAtPeriodEnd d0.
Proof.
  intros HR Hcat Hf.
  unfold handleCheckoutComplete, bind, retrieve, PLANS_get,
    Subscription_findOneAndUpdate_upsert, User_findByIdAndUpdate.
  rewrite HR, Hcat, Hf. simpl. split.
  - rewrite <- !(length_map _id). by rewrite updateFirst_ids.
  - eexists. split.
    { apply find_updateFirst_same; [exact Hf|]. by apply find_filter_true in Hf. }
    done.
Qed.

Lemma checkout_reuses_document_witness :
  length (subscriptions
            (snd (handleCheckoutComplete retrieve_sample session_pro 1702600000000
                    st_ent_deleted)))
  = length (subscriptions st_ent_deleted)
  /\ exists d,
       find (by_userId "u9")
         (subscriptions
            (snd (handleCheckoutComplete retrieve_sample session_pro 1702600000000
                    st_ent_deleted)))
       = Some d
       /\ status d = "active"
       /\ _id d = _id sub_9_deleted /\ createdAt d = createdAt sub_9_deleted
       /\ startDate d = startDate sub_9_deleted
       /\ usage d = usage sub_9_deleted
       /\ canceledAt d = canceledAt sub_9_deleted
       /\ cancelAtPeriodEnd d = cancelAtPeriodEnd sub_9_deleted.
Proof.
  apply (checkout_reuses_document retrieve_sample session_pro 1702600000000
           st_ent_deleted sub_9_at_checkout PLANS_pro sub_9_deleted);
    vm_compute; reflexivity.
Defined.

Example sub_9_deleted_fields :
  (status sub_9_deleted, canceledAt sub_9_deleted, cancelAtPeriodEnd sub_9_deleted)
  = ("canceled", Some 1702592003000, true).
Proof. reflexivity. Qed.

(** ** What an update stores, and recovery from a failed payment *)







(** ** The checkout-session route *)



Section RouteProperties.

Variable stripe_customers_retrieve : string -> option string.
Variable stripe_customers_create : string -> string -> string -> option string.
Variable stripe_checkout_sessions_create : SessionParams -> option (string * string).
Variable inherited_member_truthy : string -> string -> bool.
Variable stripe_subscriptions_update : string -> bool -> option unit.


(** X16.  How the route refuses.  A plan that is neither a key of the
    catalogue nor an inherited property name, or [free], is refused with
    "Invalid plan selected" before any call to the processor.  The refusal
    "Price not configured for this plan" comes
    only after the customer was retrieved or created at the processor:
    exactly one processor call has been made by then, and it is not a
    session creation. *)
Theorem checkout_refusals user body st :
  ((catalog st !! body_plan body = None
    /\ ~ In (body_plan body) inherited_properties)
   \/ body_plan body = "free" ->
   createCheckoutSession stripe_customers_retrieve stripe_customers_create
     stripe_checkout_sessions_create inherited_member_truthy user body st
   = ([], CheckoutBadRequest "Invalid plan selected"))
  /\ (snd (createCheckoutSession stripe_customers_retrieve stripe_customers_create
             stripe_checkout_sessions_create inherited_member_truthy user body st)
      = CheckoutBadRequest "Price not configured for this plan" ->
      exists call,
        fst (createCheckoutSession stripe_customers_retrieve stripe_customers_create
               stripe_checkout_sessions_create inherited_member_truthy user body st) = [call]
        /\ ((exists c, call = customers_retrieve c)
            \/ call = customers_create (user_email user) (user_id user)
                        (user_username user))).
Proof.
  unfold createCheckoutSession. split.
  - intros [[H Hn]| ->].
    + assert (Hi : includes (body_plan body) inherited_properties = false).
      { apply not_true_is_false. intros Hi.
        apply existsb_exists in Hi as (x & Hx & He).
        apply String.eqb_eq in He. by subst. }
      by rewrite H, Hi.
    + by rewrite orb_true_r.
  - destruct (negb _ || _); [discriminate|].
    set (existing := find _ _ ≫= stripeCustomerId).
    destruct (truthy_str existing).
    all: match goal with
         | |- context [match ?c with Some _ => _ | None => _ end] =>
             destruct c as [cid|]
         end; [|discriminate].
    all: destruct (negb (truthy_price _)).
    all: try (intros _; eexists; split; [reflexivity|]; eauto).
    all: match goal with
         | |- context [stripe_checkout_sessions_create ?q] =>
             destruct (stripe_checkout_sessions_create q) as [[sid url]|]
         end; discriminate.
Qed.

(** X17.  The processor customer is re-used: when the user has an
    [active] Subscription that carries a customer id, the route retrieves
    that customer and never creates one; otherwise (no active
    Subscription, or one without a customer id) it creates a customer from
    the user's e-mail, id and name.  This holds for every plan the route
    does not refuse outright: a key of the catalogue other than [free], or
    an inherited property name such as [constructor]. *)
Theorem checkout_customer_reuse user body st :
  is_Some (catalog st !! body_plan body) \/ In (body_plan body) inherited_properties ->
  body_plan body <> "free" ->
  head (fst (createCheckoutSession stripe_customers_retrieve stripe_customers_create
               stripe_checkout_sessions_create inherited_member_truthy user body st))
  = Some
      match find (active_of_user (user_id user)) (subscriptions st) ≫= stripeCustomerId with
      | Some c =>
          if String.eqb c "" then
            customers_create (user_email user) (user_id user) (user_username user)
          else customers_retrieve c
      | None =>
          customers_create (user_email user) (user_id user) (user_username user)
      end.
Proof.
  intros Hc Hf. unfold createCheckoutSession.
  assert (Hk : bool_decide (is_Some (catalog st !! body_plan body))
               || includes (body_plan body) inherited_properties = true).
  { destruct Hc as [Hc|Hc].
    - by rewrite bool_decide_eq_true_2.
    - apply orb_true_iff. right. apply existsb_exists.
      exists (body_plan body). split; [done|]. apply String.eqb_refl. }
  rewrite Hk.
  apply String.eqb_neq in Hf. rewrite Hf. simpl negb. cbv iota.
  set (existing := find _ _ ≫= stripeCustomerId).
  unfold truthy_str. destruct existing as [c|]; [destruct (String.eqb c "")|]; simpl.
  all: match goal with
       | |- context [match ?c with Some _ => _ | None => _ end] =>
           destruct c as [cid|]
       end; [|done].
  all: destruct (negb _); [done|].
  all: match goal with
       | |- context [stripe_checkout_sessions_create ?q] =>
           destruct (stripe_checkout_sessions_create q) as [[sid url]|]
       end; done.
Qed.

(** ** The subscription route *)

Lemma latest_spec l :
  match latest l with
  | Some m => In m l /\ forall d, In d l -> createdAt d <= createdAt m
  | None => l = []
  end.
Proof.
  induction l as [|x r IH]; simpl; [done|].
  destruct (latest r) as [m|].
  - destruct IH as [Hin Hmax]. destruct (Z.leb_spec (createdAt m) (createdAt x)).
    + split; [by left|]. intros d [<-|Hd]; [lia|]. specialize (Hmax d Hd). lia.
    + split; [by right|]. intros d [<-|Hd]; [lia|]. by apply Hmax.
  - subst r. split; [by left|]. intros d [<-|[]]. lia.
Qed.

(** X18.  [GET /subscription] answers with a Subscription of the
    requesting account that no other Subscription of that account is more
    recent than; when the account has none, it answers with plan [free],
    status [active] and the [free] bundle as the catalogue holds it at the
    time of the request (not a stored snapshot); it fails only when the
    account has none and the catalogue has no [free] entry. *)
Theorem getSubscription_spec user st :
  match getSubscription user st with
  | Ok (StoredSubscription d) =>
      In d (subscriptions st) /\ userId d = user_id user
      /\ forall d', In d' (subscriptions st) -> userId d' = user_id user ->
                    createdAt d' <= createdAt d
  | Ok (FreeDefault plan_ status_ features_) =>
      (forall d, In d (subscriptions st) -> userId d <> user_id user)
      /\ plan_ = "free" /\ status_ = "active"
      /\ plan_features <$> catalog st !! "free" = Some features_
  | Throw _ =>
      (forall d, In d (subscriptions st) -> userId d <> user_id user)
      /\ catalog st !! "free" = None
  end.
Proof.
  unfold getSubscription.
  pose proof (latest_spec (List.filter (by_userId (user_id user)) (subscriptions st))) as H.
  destruct (latest _) as [m|].
  - destruct H as [Hin Hmax]. apply filter_In in Hin as [Hin Hu].
    apply bool_decide_eq_true in Hu. split; [done|]. split; [done|].
    intros d' Hd' Hu'. apply Hmax. apply filter_In. split; [done|].
    by apply bool_decide_eq_true.
  - assert (Hnone : forall d, In d (subscriptions st) -> userId d <> user_id user).
    { intros d Hd Hu.
      assert (Hin : In d (List.filter (by_userId (user_id user)) (subscriptions st))).
      { apply filter_In. split; [done|]. by apply bool_decide_eq_true. }
      rewrite H in Hin. destruct Hin. }
    destruct (catalog st !! "free") as [free|]; simpl; auto.
Qed.
End RouteProperties.


(** A request whose cycle is [constructor] and whose currency is [name]:
    the lookup yields a truthy built-in value and a session is requested
    with it as the price. *)
Example checkout_session_inherited :
  fst (createCheckoutSession retrieve_customer_sample create_customer_sample
         create_session_sample inherited_truthy_sample req_u9
         {| body_plan := "pro"; body_billingCycle := Some "constructor";
            body_currency := Some "name" |} st_signup)
  = [ customers_create "u9@example.com" "u9" "nine";
      checkout_sessions_create
        {| sp_customer := "cus_new";
           sp_price := InheritedMember ["constructor"; "name"];
           sp_metadata_userId := "u9"; sp_metadata_plan := "pro";
           sp_metadata_billingCycle := "constructor";
           sp_metadata_currency := "name";
           sp_trial_period_days := 14 |} ].
Proof. vm_compute. reflexivity. Qed.

Lemma checkout_refusals_witness :
  createCheckoutSession retrieve_customer_sample create_customer_sample
    create_session_sample inherited_truthy_sample req_u9
    {| body_plan := "free"; body_billingCycle := None; body_currency := None |} st_signup
  = ([], CheckoutBadRequest "Invalid plan selected")
  /\ exists call,
       fst (createCheckoutSession retrieve_customer_sample create_customer_sample
              create_session_sample inherited_truthy_sample req_u9 body_enterprise st_signup) = [call]
       /\ ((exists c, call = customers_retrieve c)
           \/ call = customers_create (user_email req_u9) (user_id req_u9)
                       (user_username req_u9)).
Proof.
  split.
  - apply (proj1 (checkout_refusals retrieve_customer_sample create_customer_sample
                    create_session_sample inherited_truthy_sample req_u9 _ st_signup)).
    by right.
  - apply (proj2 (checkout_refusals retrieve_customer_sample create_customer_sample
                    create_session_sample inherited_truthy_sample req_u9 body_enterprise st_signup)).
    vm_compute. reflexivity.
Defined.

Lemma checkout_customer_reuse_witness :
  head (fst (createCheckoutSession retrieve_customer_sample create_customer_sample
               create_session_sample inherited_truthy_sample req_u1 body_pro st_pro))
  = Some (customers_retrieve "cus_1")
  /\ head (fst (createCheckoutSession retrieve_customer_sample create_customer_sample
                  create_session_sample inherited_truthy_sample req_u9 body_pro st_signup))
     = Some (customers_create "u9@example.com" "u9" "nine").
Proof.
  split.
  - apply (checkout_customer_reuse retrieve_customer_sample create_customer_sample
             create_session_sample inherited_truthy_sample req_u1 body_pro st_pro);
      [left; vm_compute; eauto | discriminate].
  - apply (checkout_customer_reuse retrieve_customer_sample create_customer_sample
             create_session_sample inherited_truthy_sample req_u9 body_pro st_signup);
      [left; vm_compute; eauto | discriminate].
Defined.

(** ** The cancel route *)

Lemma save_found_stamp p loaded doc now st :
  find p (subscriptions st) = Some loaded ->
  _id doc = _id loaded ->
  p (set_updatedAt now doc) = true ->
  validate doc = true ->
  exists st',
    save loaded doc now st = (Ok tt, st')
    /\ find p (subscriptions st')
       = Some (if decide (doc = loaded) then doc else set_updatedAt now doc)
    /\ users st' = users st /\ catalog st' = catalog st.
Proof.
  intros Hf Hid Hp Hv. unfold save. rewrite Hv.
  destruct (decide (doc = loaded)) as [->|Hne].
  - by exists st.
  - eexists. split; [reflexivity|]. split; [|done]. simpl.
    apply (find_updateFirst_id p _ loaded (set_updatedAt now doc)); auto.
Qed.

Section CancelProperties.

Variable stripe_subscriptions_update : string -> bool -> option unit.

(** X19.  A cancellation request of a user with a valid [active]
    Subscription that has a processor subscription id, accepted by the
    processor, asks the processor once to cancel at period end, and stores
    [cancelAtPeriodEnd = true] in that Subscription: the Subscription
    stays [active], keeps its billing period and everything it was sold
    as, so the account keeps its entitlements until the processor reports
    the deletion. *)
Theorem cancel_schedules user now st d sid :
  find (active_of_user (user_id user)) (subscriptions st) = Some d ->
  stripeSubscriptionId d = Some sid ->
  sid <> "" ->
  stripe_subscriptions_update sid true = Some tt ->
  validate d = true ->
  exists d' st',
    cancel stripe_subscriptions_update user now st
    = ([subscriptions_update sid true], CancelScheduled d', st')
    /\ find (active_of_user (user_id user)) (subscriptions st') = Some d'
    /\ cancelAtPeriodEnd d' = true
    /\ status d' = "active"
    /\ currentPeriodEnd d' = currentPeriodEnd d
    /\ sold_as d' = sold_as d
    /\ (forall feature, canUseFeature d' feature = canUseFeature d feature)
    /\ users st' = users st.
Proof.
  intros Hf Hs Hne Hu Hv. unfold cancel. rewrite Hf, Hs.
  apply String.eqb_neq in Hne. unfold truthy_str. rewrite Hne. simpl. rewrite Hu.
  pose proof (find_filter_true _ _ _ Hf) as Hp.
  destruct (save_found_stamp _ d (set_cancelAtPeriodEnd true d) now st Hf)
    as (st' & E & F & U & _); auto.
  rewrite E. eexists _, st'. split; [reflexivity|]. split; [exact F|].
  unfold active_of_user in Hp. apply andb_prop in Hp as [_ Hp].
  apply String.eqb_eq in Hp.
  destruct (decide (set_cancelAtPeriodEnd true d = d)); simpl; by rewrite ?Hp.
Qed.

(** X20.  Whatever the request and the state, the cancel route calls
    the processor at most once.  It answers 404 exactly when the user has
    no [active] Subscription or the first one found has no processor
    subscription id (none, or the empty string): in that case nothing is
    asked of the processor and nothing is written; in every other case the
    processor is asked, once, to cancel that subscription at period end,
    and the answer is not 404.  Unless the cancellation was scheduled, the
    state is unchanged. *)
Theorem cancel_outcomes user now st :
  (truthy_str (find (active_of_user (user_id user)) (subscriptions st)
                 ≫= stripeSubscriptionId) = false ->
   cancel stripe_subscriptions_update user now st = ([], CancelNotFound, st))
  /\ (forall sid,
        find (active_of_user (user_id user)) (subscriptions st) ≫= stripeSubscriptionId
        = Some sid ->
        sid <> "" ->
        exists response st',
          cancel stripe_subscriptions_update user now st
          = ([subscriptions_update sid true], response, st')
          /\ response <> CancelNotFound
          /\ match response with
             | CancelScheduled d' => cancelAtPeriodEnd d' = true
             | _ => st' = st
             end).
Proof.
  unfold cancel. split.
  - destruct (find _ (subscriptions st)) as [d|]; simpl; [|done].
    by intros ->.
  - intros sid Hs Hne.
    destruct (find _ (subscriptions st)) as [d|]; simpl in Hs; [|discriminate].
    rewrite Hs. apply String.eqb_neq in Hne. unfold truthy_str. rewrite Hne. simpl.
    destruct (stripe_subscriptions_update sid true).
    + pose proof (save_throw_unchanged d (set_cancelAtPeriodEnd true d) now st) as H.
      destruct (save d (set_cancelAtPeriodEnd true d) now st) as [[[]|e] st'].
      * eexists _, _. split; [reflexivity|]. split; [discriminate|].
        by destruct (decide _).
      * eexists _, _. split; [reflexivity|]. split; [discriminate|].
        by apply (H e).
    + eexists _, _. split; [reflexivity|]. split; [discriminate | done].
Qed.

(** X21.  Cancelling twice.  After a scheduled cancellation a second
    request is answered with the same Subscription and writes nothing (the
    state, [updatedAt] included, is the one the first request left); the
    processor is nevertheless asked again. *)
Theorem cancel_twice user now1 now2 st d sid :
  find (active_of_user (user_id user)) (subscriptions st) = Some d ->
  stripeSubscriptionId d = Some sid ->
  sid <> "" ->
  stripe_subscriptions_update sid true = Some tt ->
  validate d = true ->
  exists d' st',
    cancel stripe_subscriptions_update user now1 st
    = ([subscriptions_update sid true], CancelScheduled d', st')
    /\ cancel stripe_subscriptions_update user now2 st'
       = ([subscriptions_update sid true], CancelScheduled d', st').
Proof.
  intros Hf Hs Hne Hu Hv. unfold cancel at 1. rewrite Hf, Hs.
  pose proof Hne as Hne'. apply String.eqb_neq in Hne'.
  unfold truthy_str at 1. rewrite Hne'. simpl. rewrite Hu.
  pose proof (find_filter_true _ _ _ Hf) as Hp.
  destruct (save_found_stamp _ d (set_cancelAtPeriodEnd true d) now1 st Hf)
    as (st' & E & F & U & _); auto.
  rewrite E. eexists _, st'. split; [reflexivity|].
  unfold cancel. rewrite F.
  assert (Hd : forall x,
             x = (if decide (set_cancelAtPeriodEnd true d = d)
                  then set_cancelAtPeriodEnd true d
                  else set_updatedAt now1 (set_cancelAtPeriodEnd true d)) ->
             stripeSubscriptionId x = Some sid
             /\ set_cancelAtPeriodEnd true x = x /\ validate x = true).
  { intros x ->. destruct (decide _); simpl; rewrite Hs; repeat split; auto. }
  destruct (Hd _ eq_refl) as (Hs' & Hsame & Hv').
  rewrite Hs'. unfold truthy_str. rewrite Hne'. simpl. rewrite Hu.
  rewrite Hsame, save_unmodified by done.
  by rewrite decide_True.
Qed.
End CancelProperties.

Lemma cancel_outcomes_witness :
  cancel update_subscription_sample req_u9 1702000000000 st_pro
  = ([], CancelNotFound, st_pro)
  /\ exists response st',
       cancel update_subscription_sample req_u1 1702000000000 st_pro
       = ([subscriptions_update "sub_1" true], response, st')
       /\ response <> CancelNotFound
       /\ match response with
          | CancelScheduled d' => cancelAtPeriodEnd d' = true
          | _ => st' = st_pro
          end.
Proof.
  split.
  - apply (proj1 (cancel_outcomes update_subscription_sample req_u9 1702000000000 st_pro)).
    reflexivity.
  - apply (proj2 (cancel_outcomes update_subscription_sample req_u1 1702000000000 st_pro)
             "sub_1"); [reflexivity | discriminate].
Defined.

Lemma cancel_schedules_witness :
  exists d' st',
    cancel update_subscription_sample req_u1 1702000000000 st_pro
    = ([subscriptions_update "sub_1" true], CancelScheduled d', st')
    /\ find (active_of_user "u1") (subscriptions st') = Some d'
    /\ cancelAtPeriodEnd d' = true
    /\ status d' = "active"
    /\ currentPeriodEnd d' = currentPeriodEnd sub_pro
    /\ sold_as d' = sold_as sub_pro
    /\ (forall feature, canUseFeature d' feature = canUseFeature sub_pro feature)
    /\ users st' = users st_pro.
Proof.
  apply (cancel_schedules update_subscription_sample req_u1 1702000000000 st_pro
           sub_pro "sub_1"); try reflexivity.
  discriminate.
Defined.

Lemma cancel_twice_witness :
  exists d' st',
    cancel update_subscription_sample req_u1 1702000000000 st_pro
    = ([subscriptions_update "sub_1" true], CancelScheduled d', st')
    /\ cancel update_subscription_sample req_u1 1702000005000 st'
       = ([subscriptions_update "sub_1" true], CancelScheduled d', st').
Proof.
  apply (cancel_twice update_subscription_sample req_u1 1702000000000 1702000005000
           st_pro sub_pro "sub_1"); try reflexivity.
  discriminate.
Defined.

(** ** The Organization model *)

Module OrganizationProperties.
Import Organization.

Lemma existsb_is_user_false u l :
  existsb (is_user u) l = false -> ~ In u (map userId l).
Proof.
  intros H Hin. apply in_map_iff in Hin as (m & <- & Hm).
  assert (existsb (is_user (userId m)) l = true) as H'.
  { apply existsb_exists. exists m. split; [done|]. apply String.eqb_refl. }
  congruence.
Qed.

Lemma NoDup_snoc_str (l : list string) x :
  List.NoDup l -> ~ In x l -> List.NoDup (l ++ [x])%list.
Proof.
  intros Hl Hx. apply List.NoDup_app; [done | |].
  - apply List.NoDup_cons; [intros [] | apply List.NoDup_nil].
  - intros a Ha [<-|[]]. by apply Hx.
Qed.

Lemma document_save this this' : document this (save this') = this'.
Proof. unfold save. by destruct (validate this'). Qed.

(** X22.  [addMember] keeps the bookkeeping of an organization: if the
    counter [usage.currentMembers] is the number of members, no user is a
    member twice and the counter is within [limits.maxMembers], then the
    same holds of the document the call leaves, whether it threw, was
    rejected on save or was saved. *)
Theorem addMember_keeps_consistent u r i now this :
  consistent this ->
  usage_currentMembers this <= limits_maxMembers this ->
  consistent (document this (addMember u r i now this))
  /\ usage_currentMembers (document this (addMember u r i now this))
     <= limits_maxMembers (document this (addMember u r i now this)).
Proof.
  intros [Hc Hnd] Hl. unfold addMember.
  destruct (existsb (is_user u) (members this)) eqn:He; [done|].
  destruct (Z.leb_spec (limits_maxMembers this) (usage_currentMembers this)); [done|].
  rewrite document_save. unfold consistent. simpl.
  rewrite length_app, map_app. simpl. split; [split|]; try lia.
  apply NoDup_snoc_str; [done|]. by apply existsb_is_user_false.
Qed.

Lemma addMember_keeps_consistent_witness :
  consistent (document org_acme (addMember "dave" None (Some "alice") 1700000200000 org_acme))
  /\ usage_currentMembers
       (document org_acme (addMember "dave" None (Some "alice") 1700000200000 org_acme))
     <= limits_maxMembers
          (document org_acme (addMember "dave" None (Some "alice") 1700000200000 org_acme)).
Proof.
  apply addMember_keeps_consistent.
  - split; [reflexivity|]. simpl.
    apply List.NoDup_cons; [simpl; intros [H|[]]; discriminate H|].
    apply List.NoDup_cons; [intros [] | apply List.NoDup_nil].
  - simpl. lia.
Defined.

Lemma findIndex_spec p l index :
  findIndex p l = Some index ->
  exists m (l1 l2 : list Member),
    l = (l1 ++ m :: l2)%list /\ length l1 = index /\ p m = true
    /\ (forall x, In x l1 -> p x = false)
    /\ nth_error l index = Some m
    /\ splice1 index l = (l1 ++ l2)%list.
Proof.
  revert index. induction l as [|y r IH]; intros index H; simpl in H; [discriminate|].
  destruct (p y) eqn:Hy.
  - inversion H; subst. exists y, [], r. simpl. repeat split; auto.
    intros x [].
  - destruct (findIndex p r) as [j|]; [|discriminate]. simpl in H.
    inversion H; subst. destruct (IH j eq_refl) as (m & l1 & l2 & E & L & Hm & Hb & Hn & Hs).
    exists m, (y :: l1), l2. simpl. rewrite L.
    split; [by rewrite E at 1|]. split; [done|]. split; [done|].
    split; [intros x [<-|Hx]; auto|]. split; [done|].
    unfold splice1 in *. simpl. by rewrite Hs.
Qed.

Lemma findIndex_none p l :
  findIndex p l = None -> find p l = None.
Proof.
  induction l as [|y r IH]; simpl; [done|].
  destruct (p y); [discriminate|]. destruct (findIndex p r); [discriminate|]. auto.
Qed.

Lemma find_app_skip p (l1 : list Member) l2 :
  (forall x, In x l1 -> p x = false) -> find p (l1 ++ l2)%list = find p l2.
Proof.
  induction l1 as [|y r IH]; intros H; simpl; [done|].
  rewrite (H y (or_introl eq_refl)). apply IH. intros x Hx. apply H. by right.
Qed.

(** X23.  [removeMember] keeps the same bookkeeping: the counter stays
    the number of members (it is decremented exactly when a member is
    taken out, and is never negative), no user becomes a member twice, and
    the counter does not grow. *)
Theorem removeMember_keeps_consistent u this :
  consistent this ->
  consistent (document this (removeMember u this))
  /\ 0 <= usage_currentMembers (document this (removeMember u this))
     <= usage_currentMembers this.
Proof.
  intros [Hc Hnd]. unfold removeMember.
  destruct (findIndex (is_user u) (members this)) as [index|] eqn:Hf;
    [|simpl; unfold consistent; split; [done | lia]].
  destruct (findIndex_spec _ _ _ Hf) as (m & l1 & l2 & E & L & Hm & Hb & Hn & Hs).
  rewrite Hn. simpl.
  destruct (String.eqb (role m) "owner");
    [simpl; unfold consistent; split; [done | lia]|].
  rewrite document_save. unfold consistent. simpl. rewrite Hs.
  rewrite E, length_app in Hc. simpl in Hc.
  rewrite length_app. split; [split|]; try lia.
  rewrite E, map_app in Hnd. simpl in Hnd. rewrite map_app.
  by apply List.NoDup_remove_1 in Hnd.
Qed.

Lemma removeMember_keeps_consistent_witness :
  consistent (document org_acme (removeMember "bob" org_acme))
  /\ 0 <= usage_currentMembers (document org_acme (removeMember "bob" org_acme))
     <= usage_currentMembers org_acme.
Proof.
  apply removeMember_keeps_consistent.
  split; [reflexivity|]. simpl.
  apply List.NoDup_cons; [simpl; intros [H|[]]; discriminate H|].
  apply List.NoDup_cons; [intros [] | apply List.NoDup_nil].
Defined.

(** X24.  The owner is never removed: whatever user [removeMember] is
    called for, and however the call ends, every member whose role is
    [owner] is still a member of the document the call leaves. *)
Theorem removeMember_keeps_owners u this m :
  In m (members this) ->
  role m = "owner" ->
  In m (members (document this (removeMember u this))).
Proof.
  intros Hin Hr. unfold removeMember.
  destruct (findIndex (is_user u) (members this)) as [index|] eqn:Hf; [|done].
  destruct (findIndex_spec _ _ _ Hf) as (x & l1 & l2 & E & L & Hx & Hb & Hn & Hs).
  rewrite Hn. simpl.
  destruct (String.eqb_spec (role x) "owner") as [Hxo|Hxo]; [done|].
  rewrite document_save. simpl. rewrite Hs.
  rewrite E in Hin. apply in_app_or in Hin as [Hin|[<-|Hin]].
  - apply in_or_app. by left.
  - congruence.
  - apply in_or_app. by right.
Qed.

Lemma removeMember_keeps_owners_witness :
  In member_alice (members (document org_acme (removeMember "alice" org_acme)))
  /\ In member_alice (members (document org_acme (removeMember "bob" org_acme))).
Proof.
  split; apply removeMember_keeps_owners; simpl; auto.
Defined.

Lemma find_app_members p (l1 l2 : list Member) :
  find p (l1 ++ l2)%list
  = match find p l1 with Some x => Some x | None => find p l2 end.
Proof.
  induction l1 as [|y r IH]; simpl; [done|]. by destruct (p y).
Qed.

Lemma existsb_false_find p (l : list Member) :
  existsb p l = false -> find p l = None /\ forall x, In x l -> p x = false.
Proof.
  induction l as [|y r IH]; simpl; [by split|].
  intros H. apply orb_false_elim in H as [Hy Hr]. rewrite Hy.
  destruct (IH Hr) as [IH1 IH2]. split; [done|]. intros x [<-|Hx]; auto.
Qed.

(** X25.  After [addMember] has accepted a user (not yet a member, the
    organization under its limit), [getMember] finds that user with the
    given role ([member] when none is given), the inviter, and status
    [active]; every other user is found exactly as before; and the count
    of active members has grown by one. *)
Theorem addMember_then_getMember u r i now this :
  existsb (is_user u) (members this) = false ->
  usage_currentMembers this < limits_maxMembers this ->
  getMember u (document this (addMember u r i now this))
  = Some {| userId := u; role := default "member" r; invitedBy := i;
            joinedAt := now; status := "active" |}
  /\ (forall v, v <> u ->
        getMember v (document this (addMember u r i now this)) = getMember v this)
  /\ memberCount (document this (addMember u r i now this)) = memberCount this + 1.
Proof.
  intros He Hl. unfold addMember. rewrite He.
  destruct (Z.leb_spec (limits_maxMembers this) (usage_currentMembers this)); [lia|].
  rewrite document_save. unfold getMember, memberCount. simpl.
  destruct (existsb_false_find _ _ He) as [Hf _].
  split; [|split].
  - rewrite find_app_members, Hf. simpl. unfold is_user. simpl.
    by rewrite String.eqb_refl.
  - intros v Hv. rewrite find_app_members.
    destruct (find (is_user v) (members this)); [done|]. simpl.
    unfold is_user. simpl. apply String.eqb_neq in Hv.
    rewrite String.eqb_sym in Hv. by rewrite Hv.
  - rewrite List.filter_app, length_app. simpl. lia.
Qed.

Lemma addMember_then_getMember_witness :
  getMember "dave"
    (document org_acme (addMember "dave" None (Some "alice") 1700000200000 org_acme))
  = Some {| userId := "dave"; role := "member"; invitedBy := Some "alice";
            joinedAt := 1700000200000; status := "active" |}
  /\ (forall v, v <> "dave" ->
        getMember v
          (document org_acme (addMember "dave" None (Some "alice") 1700000200000 org_acme))
        = getMember v org_acme)
  /\ memberCount
       (document org_acme (addMember "dave" None (Some "alice") 1700000200000 org_acme))
     = memberCount org_acme + 1.
Proof.
  apply (addMember_then_getMember "dave" None (Some "alice") 1700000200000 org_acme);
    [reflexivity | simpl; lia].
Defined.

Lemma find_findIndex p (l : list Member) m :
  find p l = Some m ->
  exists index (l1 l2 : list Member),
    findIndex p l = Some index
    /\ l = (l1 ++ m :: l2)%list
    /\ (forall x, In x l1 -> p x = false)
    /\ nth_error l index = Some m
    /\ splice1 index l = (l1 ++ l2)%list.
Proof.
  intros Hf. destruct (findIndex p l) as [index|] eqn:Hi.
  - destruct (findIndex_spec _ _ _ Hi) as (x & l1 & l2 & E & L & Hx & Hb & Hn & Hs).
    assert (x = m) as ->.
    { rewrite E, find_app_members in Hf.
      assert (find p l1 = None) as Hn1.
      { destruct (find p l1) eqn:F1; [|done].
        apply find_some in F1 as [Hin Hp]. rewrite (Hb _ Hin) in Hp. discriminate. }
      rewrite Hn1 in Hf. simpl in Hf. rewrite Hx in Hf. by inversion Hf. }
    by exists index, l1, l2.
  - apply findIndex_none in Hi. congruence.
Qed.

(** X26.  After [removeMember] has taken out a member who is not the
    owner (no user being a member twice), [getMember] no longer finds that
    user, [hasPermission] denies that user every permission, and every
    other user is found exactly as before. *)
Theorem removeMember_revokes u this m :
  List.NoDup (map userId (members this)) ->
  getMember u this = Some m ->
  role m <> "owner" ->
  getMember u (document this (removeMember u this)) = None
  /\ (forall permission,
        hasPermission u permission (document this (removeMember u this)) = Ok false)
  /\ (forall v, v <> u ->
        getMember v (document this (removeMember u this)) = getMember v this).
Proof.
  intros Hnd Hg Hr. unfold getMember in Hg.
  destruct (find_findIndex _ _ _ Hg) as (index & l1 & l2 & Hi & E & Hb & Hn & Hs).
  pose proof (find_filter_true_member := find_some _ _ Hg).
  destruct find_filter_true_member as [_ Hu]. unfold is_user in Hu.
  apply String.eqb_eq in Hu.
  unfold removeMember. rewrite Hi, Hn. simpl.
  apply String.eqb_neq in Hr. rewrite Hr. rewrite document_save.
  assert (Hnone : find (is_user u) (l1 ++ l2)%list = None).
  { rewrite find_app_members.
    destruct (find (is_user u) l1) eqn:F1.
    { apply find_some in F1 as [Hin Hp]. rewrite (Hb _ Hin) in Hp. discriminate. }
    destruct (find (is_user u) l2) eqn:F2; [|done].
    apply find_some in F2 as [Hin Hp]. unfold is_user in Hp. apply String.eqb_eq in Hp.
    rewrite E, map_app in Hnd. simpl in Hnd. apply List.NoDup_remove_2 in Hnd.
    exfalso. apply Hnd. apply in_or_app. right. rewrite Hu, <- Hp. by apply in_map. }
  unfold hasPermission, getMember. simpl. rewrite Hs, Hnone.
  split; [done|]. split; [done|].
  intros v Hv. rewrite E, !find_app_members. simpl.
  destruct (find (is_user v) l1); [done|].
  unfold is_user at 2. rewrite Hu. apply String.eqb_neq in Hv.
  rewrite String.eqb_sym in Hv. by rewrite Hv.
Qed.

Lemma removeMember_revokes_witness :
  getMember "bob" (document org_acme (removeMember "bob" org_acme)) = None
  /\ (forall permission,
        hasPermission "bob" permission (document org_acme (removeMember "bob" org_acme))
        = Ok false)
  /\ (forall v, v <> "bob" ->
        getMember v (document org_acme (removeMember "bob" org_acme))
        = getMember v org_acme).
Proof.
  apply (removeMember_revokes "bob" org_acme member_bob); [|reflexivity|discriminate].
  simpl. apply List.NoDup_cons; [simpl; intros [H|[]]; discriminate H|].
  apply List.NoDup_cons; [intros [] | apply List.NoDup_nil].
Defined.

Lemma findIndex_last p (l : list Member) y :
  (forall x, In x l -> p x = false) -> p y = true ->
  findIndex p (l ++ [y])%list = Some (length l)
  /\ nth_error (l ++ [y])%list (length l) = Some y
  /\ splice1 (length l) (l ++ [y])%list = l.
Proof.
  intros Hb Hy. induction l as [|x r IH]; simpl.
  - by rewrite Hy.
  - rewrite (Hb x (or_introl eq_refl)).
    destruct IH as (I1 & I2 & I3); [intros z Hz; apply Hb; by right|].
    rewrite I1. simpl. split; [done|]. split; [done|].
    unfold splice1 in *. simpl. by rewrite I3.
Qed.

(** X27.  Adding a member and removing that member again is a round
    trip: when the user was not a member, the organization was under its
    limit, the counter was not negative and the role given is not [owner],
    [removeMember] after [addMember] leaves the document exactly as it
    was, member list and counter included. *)
Theorem addMember_removeMember u r i now this :
  existsb (is_user u) (members this) = false ->
  0 <= usage_currentMembers this < limits_maxMembers this ->
  default "member" r <> "owner" ->
  document (document this (addMember u r i now this))
    (removeMember u (document this (addMember u r i now this)))
  = this.
Proof.
  intros He [H0 Hl] Hr. unfold addMember. rewrite He.
  destruct (Z.leb_spec (limits_maxMembers this) (usage_currentMembers this)); [lia|].
  rewrite document_save. unfold removeMember. simpl.
  destruct (existsb_false_find _ _ He) as [_ Hb].
  destruct (findIndex_last (is_user u) (members this)
              {| userId := u; role := default "member" r; invitedBy := i;
                 joinedAt := now; status := "active" |} Hb) as (I1 & I2 & I3).
  { unfold is_user. simpl. apply String.eqb_refl. }
  rewrite I1, I2. simpl. apply String.eqb_neq in Hr. rewrite Hr.
  rewrite document_save, I3. unfold set_members. simpl.
  replace (Z.max 0 (usage_currentMembers this + 1 - 1)) with (usage_currentMembers this)
    by lia.
  by destruct this.
Qed.

Lemma addMember_removeMember_witness :
  document (document org_acme (addMember "dave" (Some "admin") None 1700000200000 org_acme))
    (removeMember "dave"
       (document org_acme (addMember "dave" (Some "admin") None 1700000200000 org_acme)))
  = org_acme.
Proof.
  apply addMember_removeMember; [reflexivity | simpl; lia | discriminate].
Defined.

Lemma find_map_key u (a b : list Member) :
  map (fun m => (userId m, role m)) a = map (fun m => (userId m, role m)) b ->
  role <$> find (is_user u) a = role <$> find (is_user u) b.
Proof.
  revert b. induction a as [|x a IH]; intros [|y b] H; simpl in *; try discriminate.
  - done.
  - inversion H as [[Hu Hr Ht]]. unfold is_user at 1 3. rewrite Hu.
    destruct (String.eqb (userId y) u); simpl; [by rewrite Hr | by apply IH].
Qed.

(** X28.  [hasPermission] looks only at who the members are and at
    their roles: a user who is not a member is denied every permission; a
    member whose role is [owner] is granted every permission; two
    documents whose members have the same users and roles, in the same
    order, answer alike, so a [suspended] or [invited] member has the
    permissions of an [active] one; and for a member whose role is one of
    the schema's four the call never throws. *)
Theorem hasPermission_by_role :
  (forall u permission this,
      getMember u this = None -> hasPermission u permission this = Ok false)
  /\ (forall u permission this m,
        getMember u this = Some m -> role m = "owner" ->
        hasPermission u permission this = Ok true)
  /\ (forall u permission a b,
        map (fun m => (userId m, role m)) (members a)
        = map (fun m => (userId m, role m)) (members b) ->
        hasPermission u permission a = hasPermission u permission b)
  /\ (forall u permission this m,
        getMember u this = Some m -> In (role m) role_enum ->
        exists granted, hasPermission u permission this = Ok granted).
Proof.
  unfold hasPermission, getMember. repeat split.
  - intros u p this ->. done.
  - intros u p this m -> ->. done.
  - intros u p a b H. pose proof (find_map_key u _ _ H) as Hk.
    destruct (find (is_user u) (members a)) as [ma|],
             (find (is_user u) (members b)) as [mb|]; simpl in Hk; try discriminate.
    + inversion Hk as [Hr]. by rewrite Hr.
    + done.
  - intros u p this m -> Hin. simpl in Hin.
    destruct Hin as [<-|[<-|[<-|[<-|[]]]]]; simpl; eauto.
Qed.

Lemma hasPermission_by_role_witness :
  hasPermission "zoe" "view_content" org_acme = Ok false
  /\ hasPermission "alice" "delete_everything" org_acme = Ok true
  /\ exists granted, hasPermission "bob" "manage_teams" org_acme = Ok granted.
Proof.
  destruct hasPermission_by_role as (H1 & H2 & _ & H4).
  split; [by apply H1|]. split; [by apply (H2 _ _ _ member_alice)|].
  apply (H4 _ _ _ member_bob); [reflexivity|]. simpl. auto.
Defined.

Lemma in_enum_In e s : in_enum e s = true <-> In s e.
Proof.
  unfold in_enum. rewrite existsb_exists. split.
  - intros (x & Hx & He). apply String.eqb_eq in He. by subst.
  - intros H. exists s. split; [done|]. apply String.eqb_refl.
Qed.

(** X29.  On a document that passes validation, [addMember] of a new
    user under the limit is saved exactly when the role is one of [owner],
    [admin], [instructor], [member] (or is left out); with any other role
    the member has been pushed and counted in memory and the save is
    rejected. *)
Theorem addMember_saved_iff_role u r i now this :
  validate this = true ->
  existsb (is_user u) (members this) = false ->
  usage_currentMembers this < limits_maxMembers this ->
  (In (default "member" r) role_enum ->
   exists this', addMember u r i now this = Saved this')
  /\ (~ In (default "member" r) role_enum ->
      exists this',
        addMember u r i now this = Rejected this'
        /\ length (members this') = S (length (members this))
        /\ usage_currentMembers this' = usage_currentMembers this + 1).
Proof.
  intros Hv He Hl. unfold addMember. rewrite He.
  destruct (Z.leb_spec (limits_maxMembers this) (usage_currentMembers this)); [lia|].
  unfold save.
  assert (Hval : validate
            (set_members
               (members this ++ [ {| userId := u; role := default "member" r;
                                     invitedBy := i; joinedAt := now;
                                     status := "active" |} ])%list
               (usage_currentMembers this + 1) this)
          = in_enum role_enum (default "member" r)).
  { unfold validate in *. unfold set_members. cbn [name slug plan members].
    rewrite forallb_app.
    apply andb_prop in Hv as [Hv1 Hv2]. rewrite Hv1, Hv2.
    cbn [forallb andb]. unfold validate_member. cbn [role status].
    replace (in_enum status_enum "active") with true by reflexivity.
    by rewrite !andb_true_r. }
  rewrite Hval. split.
  - intros Hin. apply in_enum_In in Hin. rewrite Hin. eauto.
  - intros Hin. destruct (in_enum role_enum (default "member" r)) eqn:E.
    + exfalso. apply Hin. by apply in_enum_In.
    + eexists. split; [reflexivity|]. simpl. rewrite length_app. simpl. split; lia.
Qed.

Lemma addMember_saved_iff_role_witness :
  (exists this', addMember "dave" None None 1700000200000 org_acme = Saved this')
  /\ (exists this',
        addMember "dave" (Some "superuser") None 1700000200000 org_acme = Rejected this'
        /\ length (members this') = S (length (members org_acme))
        /\ usage_currentMembers this' = usage_currentMembers org_acme + 1).
Proof.
  split.
  - apply (proj1 (addMember_saved_iff_role "dave" None None 1700000200000 org_acme
                    eq_refl eq_refl eq_refl)).
    simpl. auto.
  - apply (proj2 (addMember_saved_iff_role "dave" (Some "superuser") None 1700000200000
                    org_acme eq_refl eq_refl eq_refl)).
    simpl. intros H. repeat (destruct H as [H|H]; [discriminate H|]). exact H.
Defined.

Lemma Qc_pos_add a b : (0 < a -> 0 <= b -> 0 < a + b)%Qc.
Proof.
  unfold Qclt, Qcle, Qcplus, Q2Qc. cbn [this]. rewrite !Qred_correct.
  intros Ha Hb. apply (Qplus_lt_le_compat 0 a 0 b Ha Hb).
Qed.

Lemma acv_sum_pos (l : list t) :
  (forall o, In o l -> acv_match o = true) -> l <> [] ->
  (0 < foldr (fun o acc => (acv_of o + acc)%Qc) 0%Qc l)%Qc.
Proof.
  induction l as [|x r IH]; intros Hm Hne; [done|]. simpl.
  assert (Hx : (0 < acv_of x)%Qc).
  { specialize (Hm x (or_introl eq_refl)). unfold acv_match, acv_of in *.
    apply andb_prop in Hm as [_ Hm]. destruct (contract_acv x); [|discriminate].
    by apply bool_decide_eq_true in Hm. }
  apply Qc_pos_add; [done|].
  destruct r as [|y r']; [apply Qcle_refl|].
  apply Qclt_le_weak, IH; [|done]. intros o Ho. apply Hm. by right.
Qed.

(** X30.  [getTotalACV] counts the organizations that are active and
    have a positive contract value and sums their values: the customer
    count is 0 exactly when no organization of the collection qualifies,
    and then the total is 0 (the explicit fallback record); otherwise the
    total is strictly positive.  Inactive organizations and organizations
    without a contract value never contribute. *)
Theorem getTotalACV_spec (collection : list t) :
  customerCount (getTotalACV collection)
  = Z.of_nat (length (List.filter acv_match collection))
  /\ ((forall o, In o collection -> acv_match o = false) ->
      getTotalACV collection = {| totalACV := 0%Qc; customerCount := 0 |})
  /\ ((exists o, In o collection /\ isActive o = true
                 /\ exists a, contract_acv o = Some a /\ (0 < a)%Qc) ->
      (0 < totalACV (getTotalACV collection))%Qc
      /\ 0 < customerCount (getTotalACV collection)).
Proof.
  unfold getTotalACV. split; [|split].
  - by destruct (List.filter acv_match collection).
  - intros H.
    assert (List.filter acv_match collection = []) as ->; [|done].
    induction collection as [|x r IH]; simpl; [done|].
    rewrite (H x (or_introl eq_refl)). apply IH. intros o Ho. apply H. by right.
  - intros (o & Hin & Ha & a & Hc & Hpos).
    assert (Hf : In o (List.filter acv_match collection)).
    { apply filter_In. split; [done|]. unfold acv_match. rewrite Ha, Hc. simpl.
      by apply bool_decide_eq_true. }
    pose proof (acv_sum_pos (List.filter acv_match collection)) as Hs.
    destruct (List.filter acv_match collection) as [|y l] eqn:E; [destruct Hf|].
    split.
    + apply Hs; [|done]. intros z Hz. rewrite <- E in Hz.
      by apply filter_In in Hz as [_ ?].
    + simpl. lia.
Qed.

Lemma getTotalACV_spec_witness :
  getTotalACV [org_trial] = {| totalACV := 0%Qc; customerCount := 0 |}
  /\ (0 < totalACV (getTotalACV [org_trial; org_acme]))%Qc
  /\ 0 < customerCount (getTotalACV [org_trial; org_acme]).
Proof.
  split.
  - apply (proj1 (proj2 (getTotalACV_spec [org_trial]))).
    intros o [<-|[]]. reflexivity.
  - apply (proj2 (proj2 (getTotalACV_spec [org_trial; org_acme]))).
    exists org_acme. split; [simpl; auto|]. split; [reflexivity|].
    exists (Q2Qc 12000). split; reflexivity.
Defined.
End OrganizationProperties.
